(** * Student Management API: a shallow embedding of [index.js] and
    [databaseConnection.js]

    The service is an Express application with five routes over one
    PostgreSQL table [students].  Every handler has the same shape:

      try { client = await pool.connect(); result = await client.query(..);
            client.release(); res.json(..) }
      catch (err) { res.status(5xx).json(..) }

    The embedding keeps that shape.  A handler is a computation in a small
    state-and-exception monad over a [world] made of the table, the serial
    sequence of [id] and the number of pooled connections that are checked
    out.  State survives a throw, as it does in JavaScript: what a [try]
    block did before it raised is still done when the [catch] block runs.

    What lies outside the two source files is modelled from the SQL text
    that the source sends:
    - the table definition of [initTable] ([VARCHAR(n)], [INTEGER],
      [NOT NULL], [UNIQUE], [SERIAL], [DEFAULT CURRENT_TIMESTAMP]);
    - the driver's conversion of JavaScript values into text parameters
      ([undefined] and [null] both become SQL [NULL]);
    - failures that do not depend on the statement (an unreachable server,
      a dropped connection) are an input of each call, the [env].

    Strings are the UTF-8 bytes of the text and are compared byte by byte
    (the C collation).  JSON numbers are integers, rendered exactly as long
    as they are safe integers of JavaScript (see [exact]); body fields are
    scalars.  Console output is not modelled.  [req.body] is always an
    object, as the JSON body parser leaves it.  The pool hands out a
    connection whenever it is asked: its size limit is not modelled, so
    that a statement that a request is answered is to be read for a pool
    that still has a connection to give. *)

From Stdlib Require Import ZArith List String Ascii Bool Lia DecimalString.
From Stdlib Require Import Sorting.Sorted Sorting.Permutation.
Import ListNotations.

Local Open Scope string_scope.
Local Open Scope Z_scope.

Set Implicit Arguments.

(** ** JavaScript values of a parsed JSON body *)

Inductive jsval : Type :=
| JUndefined
| JNull
| JBool (b : bool)
| JNum (n : Z)
| JStr (s : string).

(** [!v] is false exactly when [truthy v] holds. *)
Definition truthy (v : jsval) : bool :=
  match v with
  | JUndefined | JNull => false
  | JBool b => b
  | JNum n => negb (n =? 0)
  | JStr s => negb (String.eqb s "")
  end.

(** The destructured [req.body]: a field that the body lacks is
    [JUndefined]. *)
Record body : Type := Body {
  b_name : jsval;
  b_age : jsval;
  b_rollnumber : jsval;
  b_city : jsval
}.

(** ** Rows, responses *)

Record student : Type := Student {
  s_id : Z;
  s_name : string;
  s_age : Z;
  s_rollnumber : string;
  s_city : string;
  s_created_at : Z
}.

Inductive payload : Type :=
| Row (s : student)
| Rows (l : list student).

(** The envelope [{success, message?, data?, count?}]. *)
Record envelope : Type := Envelope {
  success : bool;
  message : option string;
  data : option payload;
  count : option nat
}.

Record response : Type := Response {
  status : Z;
  json : envelope
}.

(** ** The world and the environment of one call *)

Record world : Type := World {
  students : option (list student);   (* [None]: the table does not exist *)
  students_id_seq : Z;                (* last value of the serial sequence *)
  leased : nat                        (* clients checked out of the pool *)
}.

Inductive fault : Type :=
| NoFault
| ConnectFails      (* [pool.connect()] rejects *)
| QueryFails.       (* [client.query()] rejects whatever the statement *)

Record env : Type := Env {
  env_fault : fault;
  env_now : Z                         (* CURRENT_TIMESTAMP *)
}.

(** What a [catch] block receives.  [err.code] is the SQLSTATE of a
    database error and is undefined for the others. *)
Inductive error : Type :=
| DbError (sqlstate : string)
| ConnectionError
| TypeError.

Definition code (err : error) : option string :=
  match err with
  | DbError c => Some c
  | _ => None
  end.

(** ** The monad *)

Inductive outcome (A : Type) : Type :=
| Returned (a : A)
| Thrown (err : error).

Arguments Returned {A} a.
Arguments Thrown {A} err.

Definition M (A : Type) : Type := world -> outcome A * world.

Definition ret {A} (a : A) : M A := fun w => (Returned a, w).

Definition throw {A} (err : error) : M A := fun w => (Thrown err, w).

Definition bind {A B} (m : M A) (k : A -> M B) : M B :=
  fun w =>
    match m w with
    | (Returned a, w') => k a w'
    | (Thrown err, w') => (Thrown err, w')
    end.

(** [try { m } catch (err) { h err }]: the handler runs in the world the
    block left behind. *)
Definition try_catch {A} (m : M A) (h : error -> M A) : M A :=
  fun w =>
    match m w with
    | (Returned a, w') => (Returned a, w')
    | (Thrown err, w') => h err w'
    end.

Declare Scope js_scope.
Delimit Scope js_scope with js.

Notation "x <- m ;; k" := (bind m (fun x => k))
  (at level 61, m at next level, right associativity) : js_scope.
Notation "m ;; k" := (bind m (fun _ => k))
  (at level 61, right associativity) : js_scope.

Local Open Scope js_scope.

(** ** The pool *)

Definition pool_connect (e : env) : M unit :=
  fun w =>
    match env_fault e with
    | ConnectFails => (Thrown ConnectionError, w)
    | _ => (Returned tt,
            World (students w) (students_id_seq w) (S (leased w)))
    end.

Definition client_release : M unit :=
  fun w => (Returned tt,
            World (students w) (students_id_seq w) (Nat.pred (leased w))).

(** [client.query(text, params)]: [stmt] is the meaning of the statement,
    given the current timestamp. *)
Definition client_query {A} (e : env) (stmt : Z -> M A) : M A :=
  fun w =>
    match env_fault e with
    | QueryFails => (Thrown ConnectionError, w)
    | _ => stmt (env_now e) w
    end.

(** ** The driver: JavaScript values as text parameters

    [None] is SQL [NULL]; [undefined] and [null] are sent alike. *)

Definition string_of_Z (n : Z) : string :=
  NilZero.string_of_int (Z.to_int n).

Definition prepareValue (v : jsval) : option string :=
  match v with
  | JUndefined | JNull => None
  | JBool true => Some "true"
  | JBool false => Some "false"
  | JNum n => Some (string_of_Z n)
  | JStr s => Some s
  end.

(** ** Column types of [students] *)

Definition int4_min : Z := -2147483648.
Definition int4_max : Z := 2147483647.

(** [INTEGER] input, for a plain decimal numeral with an optional minus
    sign, within 32 bits.  The store reads further spellings of a number
    (blanks around it, a plus sign); the properties below rely only on
    what this function accepts. *)
Definition int4in (s : string) : outcome Z :=
  match NilZero.int_of_string s with
  | None => Thrown (DbError "22P02")
  | Some d =>
      let n := Z.of_int d in
      if (int4_min <=? n) && (n <=? int4_max) then Returned n
      else Thrown (DbError "22003")
  end.

Fixpoint all_spaces (s : string) : bool :=
  match s with
  | EmptyString => true
  | String c s' => Ascii.eqb c " " && all_spaces s'
  end.

(** Text reaches the store as UTF-8 bytes. *)
Definition between (lo hi : nat) (c : ascii) : bool :=
  ((lo <=? nat_of_ascii c) && (nat_of_ascii c <=? hi))%nat.

Definition continuation (c : ascii) : bool := between 128 191 c.

(** What the store takes as text: no NUL byte, and well-formed UTF-8
    (one to four bytes a character, no overlong form, no surrogate,
    nothing above U+10FFFF). *)
Fixpoint text_ok (s : string) : bool :=
  match s with
  | EmptyString => true
  | String c0 s1 =>
      let b0 := nat_of_ascii c0 in
      if (b0 =? 0)%nat then false
      else if (b0 <? 128)%nat then text_ok s1
      else if (b0 <? 194)%nat then false
      else if (b0 <? 224)%nat then
        match s1 with
        | String c1 s2 => continuation c1 && text_ok s2
        | _ => false
        end
      else if (b0 <? 240)%nat then
        match s1 with
        | String c1 (String c2 s3) =>
            between (if (b0 =? 224)%nat then 160 else 128)
                    (if (b0 =? 237)%nat then 159 else 191) c1
            && continuation c2 && text_ok s3
        | _ => false
        end
      else if (b0 <? 245)%nat then
        match s1 with
        | String c1 (String c2 (String c3 s4)) =>
            between (if (b0 =? 240)%nat then 144 else 128)
                    (if (b0 =? 244)%nat then 143 else 191) c1
            && continuation c2 && continuation c3 && text_ok s4
        | _ => false
        end
      else false
  end.

(** The number of characters of a text: its bytes that do not continue
    a character. *)
Fixpoint text_length (s : string) : nat :=
  match s with
  | EmptyString => 0
  | String c s' =>
      if continuation c then text_length s' else S (text_length s')
  end.

Fixpoint string_take (k : nat) (s : string) : string :=
  match k, s with
  | S k', String c s' => String c (string_take k' s')
  | _, _ => EmptyString
  end.

Fixpoint string_drop (k : nat) (s : string) : string :=
  match k, s with
  | S k', String c s' => string_drop k' s'
  | _, _ => s
  end.

(** Assignment to [VARCHAR(n)].  Text that is not well formed is refused
    (SQLSTATE 22021).  The limit counts characters: a longer value is an
    error (22001) unless all that exceeds [n] characters is spaces,
    which are cut off. *)
Definition varchar (n : nat) (s : string) : outcome string :=
  if negb (text_ok s) then Thrown (DbError "22021")
  else if (text_length s <=? n)%nat then Returned s
  else
    let keep := (String.length s - (text_length s - n))%nat in
    if all_spaces (string_drop keep s) then Returned (string_take keep s)
    else Thrown (DbError "22001").

(** A [NULL] parameter is [NULL] in every type. *)
Definition on_param {A} (f : string -> outcome A) (p : option string)
  : outcome (option A) :=
  match p with
  | None => Returned None
  | Some s =>
      match f s with
      | Returned a => Returned (Some a)
      | Thrown err => Thrown err
      end
  end.

Definition not_null {A} (v : option A) : outcome A :=
  match v with
  | Some a => Returned a
  | None => Thrown (DbError "23502")
  end.

Definition coalesce {A} (v : option A) (stored : A) : A :=
  match v with
  | Some a => a
  | None => stored
  end.

(** ** The statements *)

Definition lift {A} (o : outcome A) : M A := fun w => (o, w).

(** The table, or SQLSTATE 42P01 when it was never created. *)
Definition relation : M (list student) :=
  fun w =>
    match students w with
    | Some tbl => (Returned tbl, w)
    | None => (Thrown (DbError "42P01"), w)
    end.

Definition store (tbl : list student) : M unit :=
  fun w => (Returned tt, World (Some tbl) (students_id_seq w) (leased w)).

(** [nextval] of the sequence behind [id SERIAL]: a value drawn is never
    given back, also when the statement fails afterwards; the sequence
    ends at the largest 32-bit integer (SQLSTATE 2200H). *)
Definition nextval : M Z :=
  fun w =>
    if students_id_seq w <? int4_max then
      let v := students_id_seq w + 1 in
      (Returned v, World (students w) v (leased w))
    else (Thrown (DbError "2200H"), w).

Definition has_rollnumber (r : string) (s : student) : bool :=
  String.eqb (s_rollnumber s) r.

Fixpoint insert_by_rollnumber (x : student) (l : list student)
  : list student :=
  match l with
  | [] => [x]
  | y :: l' =>
      if String.leb (s_rollnumber x) (s_rollnumber y) then x :: l
      else y :: insert_by_rollnumber x l'
  end.

Definition order_by_rollnumber (l : list student) : list student :=
  fold_right insert_by_rollnumber [] l.

(** [SELECT NOW()] *)
Definition sql_select_now (now : Z) : M (list Z) := ret [now].

(** [CREATE TABLE IF NOT EXISTS students (..)] *)
Definition sql_create_table (now : Z) : M (list student) :=
  fun w =>
    match students w with
    | Some _ => (Returned [], w)
    | None => (Returned [], World (Some []) 0 (leased w))
    end.

(** [SELECT * FROM students ORDER BY rollnumber] *)
Definition sql_select_all (now : Z) : M (list student) :=
  tbl <- relation;;
  ret (order_by_rollnumber tbl).

(** [SELECT * FROM students WHERE rollnumber = $1] *)
Definition sql_select_one (r : string) (now : Z) : M (list student) :=
  tbl <- relation;;
  ret (filter (has_rollnumber r) tbl).

(** [INSERT INTO students (name, age, rollnumber, city)
     VALUES ($1, $2, $3, $4) RETURNING *].
    The parameters are converted to the column types when the statement
    is bound and planned; [id] and [created_at] take their defaults; then
    come the [NOT NULL] constraints and the two unique indexes (the
    primary key and [rollnumber]). *)
Definition sql_insert (p1 p2 p3 p4 : option string) (now : Z)
  : M (list student) :=
  tbl <- relation;;
  n <- lift (on_param (varchar 100) p1);;
  a <- lift (on_param int4in p2);;
  r <- lift (on_param (varchar 50) p3);;
  c <- lift (on_param (varchar 100) p4);;
  i <- nextval;;
  n <- lift (not_null n);;
  a <- lift (not_null a);;
  r <- lift (not_null r);;
  c <- lift (not_null c);;
  if existsb (fun s => (s_id s =? i) || has_rollnumber r s) tbl
  then throw (DbError "23505")
  else
    let row := Student i n a r c now in
    store (tbl ++ [row]);;
    ret [row].

(** The [SET] clause of the update below, on one row. *)
Definition set_row (n : option string) (a : option Z) (c : option string)
  (s : student) : student :=
  Student (s_id s) (coalesce n (s_name s)) (coalesce a (s_age s))
          (s_rollnumber s) (coalesce c (s_city s)) (s_created_at s).

(** [UPDATE students SET name = COALESCE($1, name),
     age = COALESCE($2, age), city = COALESCE($3, city)
     WHERE rollnumber = $4 RETURNING *] *)
Definition sql_update (p1 p2 p3 : option string) (p4 : string) (now : Z)
  : M (list student) :=
  tbl <- relation;;
  n <- lift (on_param (varchar 100) p1);;
  a <- lift (on_param int4in p2);;
  c <- lift (on_param (varchar 100) p3);;
  store (map (fun s => if has_rollnumber p4 s then set_row n a c s else s)
             tbl);;
  ret (map (set_row n a c) (filter (has_rollnumber p4) tbl)).

(** [DELETE FROM students WHERE rollnumber = $1 RETURNING *] *)
Definition sql_delete (r : string) (now : Z) : M (list student) :=
  tbl <- relation;;
  store (filter (fun s => negb (has_rollnumber r s)) tbl);;
  ret (filter (has_rollnumber r) tbl).

(** ** The request handlers of [index.js] *)

Definition send (st : Z) (ok : bool) (msg : option string)
  (d : option payload) (n : option nat) : M response :=
  ret (Response st (Envelope ok msg d n)).

(** [app.get("/students")] *)
Definition get_students (e : env) : M response :=
  try_catch
    (pool_connect e;;
     rows <- client_query e sql_select_all;;
     client_release;;
     send 200 true None (Some (Rows rows)) (Some (List.length rows)))
    (fun err =>
     send 500 false (Some "Error fetching students") None None).

(** [app.get("/students/:rollnumber")] *)
Definition get_students_rollnumber (e : env) (rollnumber : string)
  : M response :=
  try_catch
    (pool_connect e;;
     rows <- client_query e (sql_select_one rollnumber);;
     client_release;;
     match rows with
     | [] => send 404 false (Some "Student not found") None None
     | row :: _ => send 200 true None (Some (Row row)) None
     end)
    (fun err =>
     send 500 false (Some "Error fetching student") None None).

(** [app.post("/students")] *)
Definition post_students (e : env) (b : body) : M response :=
  try_catch
    (let name := b_name b in
     let age := b_age b in
     let rollnumber := b_rollnumber b in
     let city := b_city b in
     if negb (truthy name) || negb (truthy age)
        || negb (truthy rollnumber) || negb (truthy city)
     then
       send 400 false
            (Some "All fields required: name, age, rollnumber, city")
            None None
     else
       pool_connect e;;
       rows <- client_query e
                 (sql_insert (prepareValue name) (prepareValue age)
                             (prepareValue rollnumber) (prepareValue city));;
       client_release;;
       send 201 true (Some "Student created successfully")
            (option_map Row (hd_error rows)) None)
    (fun err =>
     match code err with
     | Some "23505" =>
         send 409 false (Some "Roll number already exists") None None
     | _ => send 500 false (Some "Error creating student") None None
     end).

(** [app.put("/students/:rollnumber")] *)
Definition put_students_rollnumber (e : env) (rollnumber : string)
  (b : body) : M response :=
  try_catch
    (let name := b_name b in
     let age := b_age b in
     let city := b_city b in
     pool_connect e;;
     rows <- client_query e
               (sql_update (prepareValue name) (prepareValue age)
                           (prepareValue city) rollnumber);;
     client_release;;
     match rows with
     | [] => send 404 false (Some "Student not found") None None
     | row :: _ =>
         send 200 true (Some "Student updated successfully")
              (Some (Row row)) None
     end)
    (fun err =>
     send 500 false (Some "Error updating student") None None).

(** [app.delete("/students/:rollnumber")] *)
Definition delete_students_rollnumber (e : env) (rollnumber : string)
  : M response :=
  try_catch
    (pool_connect e;;
     rows <- client_query e (sql_delete rollnumber);;
     client_release;;
     match rows with
     | [] => send 404 false (Some "Student not found") None None
     | row :: _ =>
         send 200 true (Some "Student deleted successfully")
              (Some (Row row)) None
     end)
    (fun err =>
     send 500 false (Some "Error deleting student") None None).

(** ** Start-up: [connectDB], [initTable], [startServer] *)

(** [connectDB] of [databaseConnection.js].  Reading [result.rows[0].now]
    raises a [TypeError] when there is no first row. *)
Definition connectDB (e : env) : M bool :=
  try_catch
    (pool_connect e;;
     rows <- client_query e sql_select_now;;
     match rows with
     | [] => throw TypeError
     | _ :: _ => ret tt
     end;;
     client_release;;
     ret true)
    (fun err => ret false).

Definition initTable (e : env) : M unit :=
  try_catch
    (pool_connect e;;
     client_query e sql_create_table;;
     client_release;;
     ret tt)
    (fun err => ret tt).

(** What the process does towards the outside while it starts. *)
Inductive event : Type :=
| Listen (port : Z)       (* [app.listen(port)] *)
| Exit (exit_code : Z).   (* [process.exit(exit_code)] *)

(** [startServer]: [e1] is the environment of the connectivity check,
    [e2] that of the table creation.  The result is the sequence of
    events in the order they happen. *)
Definition startServer (e1 e2 : env) : M (list event) :=
  try_catch
    (connected <- connectDB e1;;
     if connected : bool then
       initTable e2;;
       ret [Listen 9000]
     else
       ret [Exit 1])
    (fun err => ret [Exit 1]).

(** Running a handler: the response it sends (if it does not raise) and
    the world it leaves. *)
Definition sent (r : outcome response * world) : option response :=
  match fst r with
  | Returned resp => Some resp
  | Thrown _ => None
  end.

Definition lookup (r : string) (tbl : list student) : option student :=
  find (has_rollnumber r) tbl.

(** [x] comes no later than [y] in [ORDER BY rollnumber]. *)
Definition rollnumber_le (x y : student) : Prop :=
  String.leb (s_rollnumber x) (s_rollnumber y) = true.

(** ** Vocabulary of the properties *)

(** A create request passes the presence check of [post_students]. *)
Definition all_fields_present (b : body) : bool :=
  truthy (b_name b) && truthy (b_age b)
  && truthy (b_rollnumber b) && truthy (b_city b).

(** The table accepts the values of a create request: [n], [a], [r], [c]
    are what the four columns would hold. *)
Definition insert_accepts (b : body) (n : string) (a : Z) (r c : string)
  : Prop :=
  on_param (varchar 100) (prepareValue (b_name b)) = Returned (Some n) /\
  on_param int4in (prepareValue (b_age b)) = Returned (Some a) /\
  on_param (varchar 50) (prepareValue (b_rollnumber b)) = Returned (Some r) /\
  on_param (varchar 100) (prepareValue (b_city b)) = Returned (Some c).

(** The table accepts the values that an update request supplies. *)
Definition update_accepts (b : body) (n : option string) (a : option Z)
  (c : option string) : Prop :=
  on_param (varchar 100) (prepareValue (b_name b)) = Returned n /\
  on_param int4in (prepareValue (b_age b)) = Returned a /\
  on_param (varchar 100) (prepareValue (b_city b)) = Returned c.

(** A body in which every [null] has been dropped. *)
Definition null_as_absent (v : jsval) : jsval :=
  match v with
  | JNull => JUndefined
  | _ => v
  end.

Definition drop_nulls (b : body) : body :=
  Body (null_as_absent (b_name b)) (null_as_absent (b_age b))
       (null_as_absent (b_rollnumber b)) (null_as_absent (b_city b)).

(** The invariant of the table: roll numbers are distinct, and every
    [id] was drawn from the sequence. *)
Definition consistent (w : world) : Prop :=
  match students w with
  | Some tbl =>
      NoDup (map s_rollnumber tbl) /\
      Forall (fun s => s_id s <= students_id_seq w) tbl
  | None => True
  end.

(** ** A small database for the examples *)

Definition alice : student := Student 1 "Alice" 20 "R2" "Paris" 1000.
Definition bob : student := Student 2 "Bob" 21 "R1" "Rome" 1001.

Definition campus : world := World (Some [alice; bob]) 2 0.
Definition empty_campus : world := World (Some []) 0 0.
Definition no_database : world := World None 0 0.

Definition online : env := Env NoFault 2000.
Definition unreachable : env := Env ConnectFails 2000.
Definition dropped : env := Env QueryFails 2000.

(** ** The root route and the application as a whole *)

(** The body that [app.get("/")] sends: it is not an envelope. *)
Record description : Type := Description {
  d_message : string;
  d_status : string;
  d_endpoints : list (string * string)
}.

(** [app.get("/")]: no connection, no statement, no [try]. *)
Definition get_root : M description :=
  ret (Description "Student Management API" "Connected to Neon Database"
         [("GET /students", "Get all students");
          ("GET /students/:rollnumber", "Get student by roll number");
          ("POST /students", "Create new student");
          ("PUT /students/:rollnumber", "Update student");
          ("DELETE /students/:rollnumber", "Delete student")]).

(** A request, by the route that takes it. *)
Inductive request : Type :=
| GetRoot
| GetStudents
| GetStudent (rollnumber : string)
| PostStudents (b : body)
| PutStudent (rollnumber : string) (b : body)
| DeleteStudent (rollnumber : string).

Inductive reply : Type :=
| Described (d : description)
| Answered (r : response).

Definition app (e : env) (req : request) : M reply :=
  match req with
  | GetRoot => d <- get_root;; ret (Described d)
  | GetStudents => r <- get_students e;; ret (Answered r)
  | GetStudent rollnumber =>
      r <- get_students_rollnumber e rollnumber;; ret (Answered r)
  | PostStudents b => r <- post_students e b;; ret (Answered r)
  | PutStudent rollnumber b =>
      r <- put_students_rollnumber e rollnumber b;; ret (Answered r)
  | DeleteStudent rollnumber =>
      r <- delete_students_rollnumber e rollnumber;; ret (Answered r)
  end.

(** Requests served one after the other, each in its own environment. *)
Fixpoint serve (reqs : list (env * request)) : M (list reply) :=
  match reqs with
  | [] => ret []
  | (e, req) :: rest =>
      r <- app e req;;
      rs <- serve rest;;
      ret (r :: rs)
  end.

(** ** More vocabulary *)

(** [JNum n] stands for the JSON number of value [n].  The driver sends a
    number as JavaScript prints it, which is the decimal numeral of [n]
    as long as [n] is a safe integer; the model renders a number exactly
    on that range only. *)
Definition max_safe_integer : Z := 9007199254740991.

Definition exact (v : jsval) : bool :=
  match v with
  | JNum n => Z.abs n <=? max_safe_integer
  | _ => true
  end.

Definition exact_numbers (b : body) : bool :=
  exact (b_name b) && exact (b_age b)
  && exact (b_rollnumber b) && exact (b_city b).

(** The world with one more, or one fewer, connection checked out. *)
Definition checked_out (w : world) : world :=
  World (students w) (students_id_seq w) (S (leased w)).

Definition given_back (w : world) : world :=
  World (students w) (students_id_seq w) (Nat.pred (leased w)).

(** The primary key: no two rows have the same [id]. *)
Definition ids_distinct (w : world) : Prop :=
  match students w with
  | Some tbl => NoDup (map s_id tbl)
  | None => True
  end.

(** A row fits the column types of the table definition; the limits
    of the text columns are in characters. *)
Definition fits_columns (s : student) : Prop :=
  (text_length (s_name s) <= 100)%nat /\
  int4_min <= s_age s <= int4_max /\
  (text_length (s_rollnumber s) <= 50)%nat /\
  (text_length (s_city s) <= 100)%nat.

Definition rows_fit_columns (w : world) : Prop :=
  match students w with
  | Some tbl => Forall fits_columns tbl
  | None => True
  end.

(** A failure status of the handlers' [catch] blocks. *)
Definition caught (st : Z) : Prop := st = 500 \/ st = 409.

Definition carol : body :=
  Body (JStr "Carol") (JNum 22) (JStr "R3") (JStr "Oslo").

Definition carol_row : student := Student 3 "Carol" 22 "R3" "Oslo" 2000.

(** The envelope agrees with the status: [success] is true exactly on
    200 and 201, and a failure carries a message and nothing else. *)
Definition envelope_agrees (r : response) : Prop :=
  (success (json r) = true <-> status r = 200 \/ status r = 201) /\
  (success (json r) = false ->
   data (json r) = None /\ count (json r) = None /\
   message (json r) <> None).



(** * Properties *)

(** ** The order of [ORDER BY rollnumber] *)

Lemma string_leb_trans (s1 s2 s3 : string) :
  String.leb s1 s2 = true -> String.leb s2 s3 = true ->
  String.leb s1 s3 = true.
Proof.
  unfold String.leb. revert s2 s3.
  induction s1 as [|a s1 IH]; intros [|b s2] [|c s3]; simpl;
    try congruence.
  unfold Ascii.compare.
  destruct (N.compare_spec (N_of_ascii a) (N_of_ascii b)) as [Hab|Hab|Hab];
    try congruence;
    destruct (N.compare_spec (N_of_ascii b) (N_of_ascii c)) as [Hbc|Hbc|Hbc];
    try congruence; intros H1 H2.
  - rewrite Hab, Hbc, N.compare_refl. now apply IH with s2.
  - rewrite Hab. now apply N.compare_lt_iff in Hbc as ->.
  - rewrite <- Hbc. now apply N.compare_lt_iff in Hab as ->.
  - assert (Hac : (N_of_ascii a < N_of_ascii c)%N) by lia.
    now apply N.compare_lt_iff in Hac as ->.
Qed.

Lemma rollnumber_le_trans (x y z : student) :
  rollnumber_le x y -> rollnumber_le y z -> rollnumber_le x z.
Proof. unfold rollnumber_le. apply string_leb_trans. Qed.

Lemma rollnumber_le_total (x y : student) :
  rollnumber_le x y \/ rollnumber_le y x.
Proof. unfold rollnumber_le. apply String.leb_total. Qed.

Lemma insert_by_rollnumber_perm (x : student) (l : list student) :
  Permutation (x :: l) (insert_by_rollnumber x l).
Proof.
  induction l as [|y l IH]; simpl.
  - apply Permutation_refl.
  - destruct (String.leb (s_rollnumber x) (s_rollnumber y)).
    + apply Permutation_refl.
    + eapply perm_trans; [apply perm_swap|]. now apply perm_skip.
Qed.

Lemma order_by_rollnumber_perm (l : list student) :
  Permutation l (order_by_rollnumber l).
Proof.
  induction l as [|x l IH]; simpl.
  - apply perm_nil.
  - eapply perm_trans; [apply perm_skip, IH|].
    apply insert_by_rollnumber_perm.
Qed.

Lemma insert_by_rollnumber_sorted (x : student) (l : list student) :
  StronglySorted rollnumber_le l ->
  StronglySorted rollnumber_le (insert_by_rollnumber x l).
Proof.
  induction 1 as [|y l Hs IH Hy]; simpl.
  - repeat constructor.
  - destruct (String.leb (s_rollnumber x) (s_rollnumber y)) eqn:Hxy.
    + constructor; [now constructor|].
      constructor; [exact Hxy|].
      eapply Forall_impl; [|exact Hy].
      intros z Hz. now apply rollnumber_le_trans with y.
    + constructor; [exact IH|].
      eapply Permutation_Forall; [apply insert_by_rollnumber_perm|].
      constructor; [|exact Hy].
      destruct (rollnumber_le_total x y) as [H|H]; [|exact H].
      unfold rollnumber_le in H. congruence.
Qed.

Lemma order_by_rollnumber_sorted (l : list student) :
  StronglySorted rollnumber_le (order_by_rollnumber l).
Proof.
  induction l as [|x l IH]; simpl.
  - constructor.
  - now apply insert_by_rollnumber_sorted.
Qed.

(** With distinct roll numbers there is one sorted arrangement. *)
Lemma sorted_by_rollnumber_unique (l1 l2 : list student) :
  NoDup (map s_rollnumber l1) ->
  StronglySorted rollnumber_le l1 -> StronglySorted rollnumber_le l2 ->
  Permutation l1 l2 -> l1 = l2.
Proof.
  revert l2. induction l1 as [|x l1 IH]; intros l2 Hnd H1 H2 Hp.
  - now apply Permutation_nil in Hp.
  - destruct l2 as [|y l2].
    { apply Permutation_sym, Permutation_nil in Hp. discriminate. }
    inversion H1 as [|? ? Hs1 Hx]; subst.
    inversion H2 as [|? ? Hs2 Hy]; subst.
    inversion Hnd as [|? ? Hnx Hnd']; subst.
    assert (Hxy : x = y).
    { assert (Hin1 : In x (y :: l2)).
      { eapply Permutation_in; [exact Hp|now left]. }
      assert (Hin2 : In y (x :: l1)).
      { eapply Permutation_in; [apply Permutation_sym, Hp|now left]. }
      destruct Hin1 as [->|Hin1]; [reflexivity|].
      destruct Hin2 as [->|Hin2]; [reflexivity|].
      rewrite Forall_forall in Hx, Hy.
      assert (Hr : s_rollnumber x = s_rollnumber y).
      { apply String.leb_antisym; [apply Hx, Hin2|apply Hy, Hin1]. }
      exfalso. apply Hnx. rewrite Hr. now apply in_map. }
    subst y. f_equal.
    apply IH; auto. now apply Permutation_cons_inv in Hp.
Qed.

(** ** Rows selected by roll number *)

Lemma lookup_filter (r : string) (tbl : list student) (s : student) :
  lookup r tbl = Some s ->
  exists rest, filter (has_rollnumber r) tbl = s :: rest.
Proof.
  unfold lookup. induction tbl as [|x tbl IH]; simpl; [discriminate|].
  destruct (has_rollnumber r x).
  - intros [= ->]. now exists (filter (has_rollnumber r) tbl).
  - exact IH.
Qed.

Lemma lookup_none_filter (r : string) (tbl : list student) :
  lookup r tbl = None -> filter (has_rollnumber r) tbl = [].
Proof.
  unfold lookup. induction tbl as [|x tbl IH]; simpl; [reflexivity|].
  destruct (has_rollnumber r x); [discriminate|exact IH].
Qed.

Lemma lookup_has_rollnumber (r : string) (tbl : list student) (s : student) :
  lookup r tbl = Some s -> In s tbl /\ s_rollnumber s = r.
Proof.
  unfold lookup. intros H. apply find_some in H as [Hin Hr].
  split; [exact Hin|]. now apply String.eqb_eq.
Qed.

Lemma lookup_after_delete (r : string) (tbl : list student) :
  lookup r (filter (fun s => negb (has_rollnumber r s)) tbl) = None.
Proof.
  unfold lookup. induction tbl as [|x tbl IH]; simpl; [reflexivity|].
  destruct (has_rollnumber r x) eqn:Hx; simpl; [exact IH|].
  now rewrite Hx.
Qed.

Lemma lookup_after_update (r : string) (f : student -> student)
  (tbl : list student) :
  (forall s, s_rollnumber (f s) = s_rollnumber s) ->
  lookup r (map (fun s => if has_rollnumber r s then f s else s) tbl)
  = option_map f (lookup r tbl).
Proof.
  intros Hf. unfold lookup.
  induction tbl as [|x tbl IH]; simpl; [reflexivity|].
  destruct (has_rollnumber r x) eqn:Hx.
  - unfold has_rollnumber in *. now rewrite Hf, Hx.
  - now rewrite Hx.
Qed.

Lemma set_row_nothing (s : student) : set_row None None None s = s.
Proof. now destruct s. Qed.

Lemma update_nothing (r : string) (tbl : list student) :
  map (fun s => if has_rollnumber r s then set_row None None None s else s)
      tbl = tbl.
Proof.
  induction tbl as [|x tbl IH]; simpl; [reflexivity|].
  rewrite IH, set_row_nothing. now destruct (has_rollnumber r x).
Qed.

(** ** Create *)

(** C4.  A create request in which one of [name], [age], [rollnumber],
    [city] is absent or falsy is answered with status 400 and
    [success: false], whatever the state of the database server; the
    handler leaves the world as it found it: no row is stored, no
    sequence value is drawn and no connection is taken from the pool. *)
Theorem post_missing_field_400 (e : env) (b : body) (w : world) :
  truthy (b_name b) = false \/ truthy (b_age b) = false \/
  truthy (b_rollnumber b) = false \/ truthy (b_city b) = false ->
  post_students e b w
  = (Returned
       (Response 400
          (Envelope false
             (Some "All fields required: name, age, rollnumber, city")
             None None)),
     w).
Proof.
  intros H. unfold post_students, try_catch.
  assert (Hguard : negb (truthy (b_name b)) || negb (truthy (b_age b))
                   || negb (truthy (b_rollnumber b))
                   || negb (truthy (b_city b)) = true).
  { destruct H as [H|[H|[H|H]]]; rewrite H; simpl;
      rewrite ?orb_true_r; reflexivity. }
  now rewrite Hguard.
Qed.

Lemma post_missing_field_400_witness :
  post_students unreachable
    (Body (JStr "Carol") (JNum 0) (JStr "R3") (JStr "Oslo")) campus
  = (Returned
       (Response 400
          (Envelope false
             (Some "All fields required: name, age, rollnumber, city")
             None None)),
     campus).
Proof.
  apply post_missing_field_400. right; left. reflexivity.
Defined.

Lemma present_guard (b : body) :
  all_fields_present b = true ->
  negb (truthy (b_name b)) || negb (truthy (b_age b))
  || negb (truthy (b_rollnumber b)) || negb (truthy (b_city b)) = false.
Proof.
  unfold all_fields_present. intros H.
  apply andb_prop in H as [H Hc]. apply andb_prop in H as [H Hr].
  apply andb_prop in H as [Hn Ha]. now rewrite Hn, Ha, Hr, Hc.
Qed.

Lemma unique_index_hit (r : string) (i : Z) (tbl : list student)
  (s : student) :
  lookup r tbl = Some s ->
  existsb (fun x => (s_id x =? i) || has_rollnumber r x) tbl = true.
Proof.
  intros H. apply find_some in H as [Hin Hr].
  apply existsb_exists. exists s. split; [exact Hin|].
  rewrite Hr. apply orb_true_r.
Qed.

(** What a create request with a roll number in use does, in full. *)
Lemma post_duplicate_run (e : env) (b : body) (w : world)
  (tbl : list student) (n : string) (a : Z) (r c : string) (s : student) :
  env_fault e = NoFault ->
  students w = Some tbl ->
  all_fields_present b = true ->
  insert_accepts b n a r c ->
  lookup r tbl = Some s ->
  students_id_seq w < int4_max ->
  post_students e b w
  = (Returned
       (Response 409
          (Envelope false (Some "Roll number already exists") None None)),
     World (Some tbl) (students_id_seq w + 1) (S (leased w))).
Proof.
  intros He Hw Hb (Hn & Ha & Hr & Hc) Hs Hq.
  destruct w as [t q l]; simpl in Hw, Hq; subst t.
  apply Z.ltb_lt in Hq.
  unfold post_students, try_catch.
  rewrite (present_guard b Hb).
  unfold bind, pool_connect, client_query, sql_insert, bind, relation, lift,
    nextval.
  rewrite He; simpl. rewrite Hn, Ha, Hr, Hc; simpl. rewrite Hq; simpl.
  now rewrite (unique_index_hit r (q + 1) tbl Hs).
Qed.

(** ** The pool *)

(** C3, at a request whose query raises.  Creating Carol under roll
    number R1, which [bob] holds, with no connection checked out
    beforehand: the handler answers 409 and returns with one connection
    still checked out. *)
Theorem post_duplicate_keeps_connection :
  post_students online
    (Body (JStr "Carol") (JNum 22) (JStr "R1") (JStr "Oslo")) campus
  = (Returned
       (Response 409
          (Envelope false (Some "Roll number already exists") None None)),
     World (Some [alice; bob]) 3 1)
  /\ leased campus = 0%nat.
Proof. split; reflexivity. Qed.

(** Every route keeps the connection when [client.query] rejects. *)
Lemma query_failure_keeps_connection (e : env) (r : string) (b : body)
  (w : world) :
  env_fault e = QueryFails ->
  leased (snd (get_students e w)) = S (leased w) /\
  leased (snd (get_students_rollnumber e r w)) = S (leased w) /\
  (all_fields_present b = true ->
   leased (snd (post_students e b w)) = S (leased w)) /\
  leased (snd (put_students_rollnumber e r b w)) = S (leased w) /\
  leased (snd (delete_students_rollnumber e r w)) = S (leased w).
Proof.
  intros He.
  unfold get_students, get_students_rollnumber, post_students,
    put_students_rollnumber, delete_students_rollnumber,
    try_catch, bind, pool_connect, client_query.
  rewrite He. simpl. repeat split.
  intros Hb. rewrite (present_guard b Hb). reflexivity.
Qed.

(** ** List *)

Lemma get_students_run (e : env) (w : world) (tbl : list student) :
  env_fault e = NoFault ->
  students w = Some tbl ->
  get_students e w
  = (Returned
       (Response 200
          (Envelope true None (Some (Rows (order_by_rollnumber tbl)))
             (Some (List.length (order_by_rollnumber tbl))))),
     w).
Proof.
  intros He Hw. destruct w as [t q l]; simpl in Hw; subst t.
  unfold get_students, try_catch, bind, pool_connect, client_query,
    sql_select_all, bind, relation.
  now rewrite He.
Qed.

(** C5.  With the server reachable, listing answers 200 with
    [success: true], all the rows of the table (each one once) in
    ascending order of roll number, and their number as [count], and it
    leaves the world as it was.  The order in which the rows came into
    the table does not show: two tables holding the same rows, with
    distinct roll numbers, give the same response. *)
Theorem get_students_sorted (e : env) (w : world) (tbl : list student) :
  env_fault e = NoFault ->
  students w = Some tbl ->
  exists rows,
    get_students e w
    = (Returned
         (Response 200
            (Envelope true None (Some (Rows rows))
               (Some (List.length rows)))),
       w) /\
    Permutation tbl rows /\
    StronglySorted rollnumber_le rows /\
    List.length rows = List.length tbl /\
    (forall w' tbl',
        students w' = Some tbl' ->
        Permutation tbl tbl' ->
        NoDup (map s_rollnumber tbl) ->
        fst (get_students e w') = fst (get_students e w)).
Proof.
  intros He Hw. exists (order_by_rollnumber tbl).
  split; [now apply get_students_run|].
  split; [apply order_by_rollnumber_perm|].
  split; [apply order_by_rollnumber_sorted|].
  split.
  { symmetry. apply Permutation_length, order_by_rollnumber_perm. }
  intros w' tbl' Hw' Hp Hnd.
  rewrite (get_students_run e w He Hw), (get_students_run e w' He Hw').
  simpl.
  assert (Heq : order_by_rollnumber tbl = order_by_rollnumber tbl').
  { apply sorted_by_rollnumber_unique.
    - eapply Permutation_NoDup; [|exact Hnd].
      apply Permutation_map, order_by_rollnumber_perm.
    - apply order_by_rollnumber_sorted.
    - apply order_by_rollnumber_sorted.
    - eapply perm_trans;
        [apply Permutation_sym, order_by_rollnumber_perm|].
      eapply perm_trans; [exact Hp|apply order_by_rollnumber_perm]. }
  now rewrite Heq.
Qed.

Lemma get_students_sorted_witness :
  exists rows,
    get_students online campus
    = (Returned
         (Response 200
            (Envelope true None (Some (Rows rows))
               (Some (List.length rows)))),
       campus) /\
    Permutation [alice; bob] rows /\
    StronglySorted rollnumber_le rows /\
    List.length rows = List.length [alice; bob] /\
    (forall w' tbl',
        students w' = Some tbl' ->
        Permutation [alice; bob] tbl' ->
        NoDup (map s_rollnumber [alice; bob]) ->
        fst (get_students online w') = fst (get_students online campus)).
Proof.
  apply (@get_students_sorted online campus [alice; bob]); reflexivity.
Defined.

(** C10.  A response of the list route with [success: true] has status
    200, an array as [data] and the length of that array as [count].
    Over an empty table the route answers 200 with the empty array and
    count 0. *)
Theorem get_students_count (e : env) (w : world) :
  (forall resp,
      sent (get_students e w) = Some resp ->
      success (json resp) = true ->
      exists rows,
        status resp = 200 /\
        data (json resp) = Some (Rows rows) /\
        count (json resp) = Some (List.length rows)) /\
  (env_fault e = NoFault ->
   students w = Some [] ->
   sent (get_students e w)
   = Some (Response 200 (Envelope true None (Some (Rows [])) (Some 0%nat)))).
Proof.
  split.
  - destruct e as [f now], w as [[t|] q l]; destruct f;
      unfold sent, get_students, try_catch, bind, pool_connect,
        client_query, sql_select_all, bind, relation; simpl;
      intros resp [= <-]; simpl; try discriminate.
    intros _. now exists (order_by_rollnumber t).
  - intros He Hw. now rewrite (get_students_run e w He Hw).
Qed.

Lemma get_students_count_witness :
  (exists rows,
      status (Response 200
                (Envelope true None (Some (Rows [bob; alice]))
                   (Some 2%nat))) = 200 /\
      data (json (Response 200
                    (Envelope true None (Some (Rows [bob; alice]))
                       (Some 2%nat)))) = Some (Rows rows) /\
      count (json (Response 200
                     (Envelope true None (Some (Rows [bob; alice]))
                        (Some 2%nat)))) = Some (List.length rows)) /\
  sent (get_students online empty_campus)
  = Some (Response 200 (Envelope true None (Some (Rows [])) (Some 0%nat))).
Proof.
  split.
  - apply (proj1 (get_students_count online campus)); reflexivity.
  - apply (proj2 (get_students_count online empty_campus)); reflexivity.
Defined.

(** ** Fetch and delete *)

Lemma get_missing_run (e : env) (r : string) (w : world)
  (tbl : list student) :
  env_fault e = NoFault ->
  students w = Some tbl ->
  lookup r tbl = None ->
  get_students_rollnumber e r w
  = (Returned
       (Response 404 (Envelope false (Some "Student not found") None None)),
     w).
Proof.
  intros He Hw Hr. destruct w as [t q l]; simpl in Hw; subst t.
  unfold get_students_rollnumber, try_catch, bind, pool_connect,
    client_query, sql_select_one, bind, relation.
  rewrite He; simpl. now rewrite (lookup_none_filter r tbl Hr).
Qed.

Lemma delete_found_run (e : env) (r : string) (w : world)
  (tbl : list student) (s : student) :
  env_fault e = NoFault ->
  students w = Some tbl ->
  lookup r tbl = Some s ->
  delete_students_rollnumber e r w
  = (Returned
       (Response 200
          (Envelope true (Some "Student deleted successfully")
             (Some (Row s)) None)),
     World (Some (filter (fun x => negb (has_rollnumber r x)) tbl))
           (students_id_seq w) (leased w)).
Proof.
  intros He Hw Hr. destruct w as [t q l]; simpl in Hw; subst t.
  destruct (lookup_filter r tbl Hr) as [rest Hrest].
  unfold delete_students_rollnumber, try_catch, bind, pool_connect,
    client_query, sql_delete, bind, relation, store.
  rewrite He; simpl. now rewrite Hrest.
Qed.

Lemma delete_missing_run (e : env) (r : string) (w : world)
  (tbl : list student) :
  env_fault e = NoFault ->
  students w = Some tbl ->
  lookup r tbl = None ->
  delete_students_rollnumber e r w
  = (Returned
       (Response 404 (Envelope false (Some "Student not found") None None)),
     World (Some (filter (fun x => negb (has_rollnumber r x)) tbl))
           (students_id_seq w) (leased w)).
Proof.
  intros He Hw Hr. destruct w as [t q l]; simpl in Hw; subst t.
  unfold delete_students_rollnumber, try_catch, bind, pool_connect,
    client_query, sql_delete, bind, relation, store.
  rewrite He; simpl. now rewrite (lookup_none_filter r tbl Hr).
Qed.

(** C6.  With the server reachable, deleting a roll number that the
    table holds answers 200 with the stored record as [data].  In the
    world this leaves, fetching that roll number answers 404, and
    deleting it again answers 404: the handler returns a response, it
    does not raise. *)
Theorem delete_then_not_found (e1 e2 e3 : env) (r : string) (w : world)
  (tbl : list student) (s : student) :
  env_fault e1 = NoFault ->
  env_fault e2 = NoFault ->
  env_fault e3 = NoFault ->
  students w = Some tbl ->
  lookup r tbl = Some s ->
  exists w1,
    delete_students_rollnumber e1 r w
    = (Returned
         (Response 200
            (Envelope true (Some "Student deleted successfully")
               (Some (Row s)) None)),
       w1) /\
    get_students_rollnumber e2 r w1
    = (Returned
         (Response 404
            (Envelope false (Some "Student not found") None None)),
       w1) /\
    exists w2,
      delete_students_rollnumber e3 r w1
      = (Returned
           (Response 404
              (Envelope false (Some "Student not found") None None)),
         w2).
Proof.
  intros He1 He2 He3 Hw Hr.
  eexists. split; [now apply delete_found_run with (tbl := tbl)|].
  split.
  - eapply get_missing_run; [exact He2|reflexivity|].
    apply lookup_after_delete.
  - eexists. eapply delete_missing_run; [exact He3|reflexivity|].
    apply lookup_after_delete.
Qed.

Lemma delete_then_not_found_witness :
  exists w1,
    delete_students_rollnumber online "R1" campus
    = (Returned
         (Response 200
            (Envelope true (Some "Student deleted successfully")
               (Some (Row bob)) None)),
       w1) /\
    get_students_rollnumber online "R1" w1
    = (Returned
         (Response 404
            (Envelope false (Some "Student not found") None None)),
       w1) /\
    exists w2,
      delete_students_rollnumber online "R1" w1
      = (Returned
           (Response 404
              (Envelope false (Some "Student not found") None None)),
         w2).
Proof.
  apply (@delete_then_not_found online online online "R1" campus
           [alice; bob] bob); reflexivity.
Defined.

(** ** Update *)

Lemma set_row_rollnumber (n : option string) (a : option Z)
  (c : option string) (s : student) :
  s_rollnumber (set_row n a c s) = s_rollnumber s.
Proof. reflexivity. Qed.

Lemma put_found_run (e : env) (r : string) (b : body) (w : world)
  (tbl : list student) (s : student) (n : option string) (a : option Z)
  (c : option string) :
  env_fault e = NoFault ->
  students w = Some tbl ->
  lookup r tbl = Some s ->
  update_accepts b n a c ->
  put_students_rollnumber e r b w
  = (Returned
       (Response 200
          (Envelope true (Some "Student updated successfully")
             (Some (Row (set_row n a c s))) None)),
     World
       (Some (map (fun x => if has_rollnumber r x then set_row n a c x
                            else x) tbl))
       (students_id_seq w) (leased w)).
Proof.
  intros He Hw Hr (Hn & Ha & Hc).
  destruct w as [t q l]; simpl in Hw; subst t.
  destruct (lookup_filter r tbl Hr) as [rest Hrest].
  unfold put_students_rollnumber, try_catch, bind, pool_connect,
    client_query, sql_update, bind, relation, lift, store.
  rewrite He; simpl. rewrite Hn, Ha, Hc; simpl. now rewrite Hrest.
Qed.

(** On every path of the update handler, also the failing ones, the row
    stored under the roll number keeps its identity and every field for
    which the driver sends [NULL]. *)
Lemma put_keeps_unsupplied (e : env) (r : string) (b : body) (w : world)
  (tbl : list student) (s : student) :
  students w = Some tbl ->
  lookup r tbl = Some s ->
  exists tbl' s',
    students (snd (put_students_rollnumber e r b w)) = Some tbl' /\
    lookup r tbl' = Some s' /\
    s_id s' = s_id s /\
    s_rollnumber s' = s_rollnumber s /\
    s_created_at s' = s_created_at s /\
    (prepareValue (b_name b) = None -> s_name s' = s_name s) /\
    (prepareValue (b_age b) = None -> s_age s' = s_age s) /\
    (prepareValue (b_city b) = None -> s_city s' = s_city s).
Proof.
  intros Hw Hr.
  assert (Hsame :
            exists tbl' s',
              Some tbl = Some tbl' /\ lookup r tbl' = Some s' /\
              s_id s' = s_id s /\ s_rollnumber s' = s_rollnumber s /\
              s_created_at s' = s_created_at s /\
              (prepareValue (b_name b) = None -> s_name s' = s_name s) /\
              (prepareValue (b_age b) = None -> s_age s' = s_age s) /\
              (prepareValue (b_city b) = None -> s_city s' = s_city s)).
  { exists tbl, s. repeat split; auto. }
  destruct w as [t q l]; simpl in Hw; subst t.
  destruct (lookup_filter r tbl Hr) as [rest Hrest].
  unfold put_students_rollnumber, try_catch, bind, pool_connect,
    client_query, sql_update, bind, relation, lift, store.
  destruct (env_fault e); simpl; try exact Hsame.
  destruct (on_param (varchar 100) (prepareValue (b_name b)))
    as [n|] eqn:Hn; simpl; try exact Hsame.
  destruct (on_param int4in (prepareValue (b_age b)))
    as [a|] eqn:Ha; simpl; try exact Hsame.
  destruct (on_param (varchar 100) (prepareValue (b_city b)))
    as [c|] eqn:Hc; simpl; try exact Hsame.
  rewrite Hrest; simpl.
  eexists _, (set_row n a c s). split; [reflexivity|].
  split.
  { rewrite lookup_after_update by apply set_row_rollnumber.
    now rewrite Hr. }
  repeat split.
  - intros Hp. rewrite Hp in Hn. now injection Hn as <-.
  - intros Hp. rewrite Hp in Ha. now injection Ha as <-.
  - intros Hp. rewrite Hp in Hc. now injection Hc as <-.
Qed.

(** C8.  With the server reachable, an update request whose body has
    none of [name], [age], [city], for a roll number that the table
    holds, answers 200 with the stored record and leaves the world as it
    was. *)
Theorem put_empty_body_identity (e : env) (r : string) (b : body)
  (w : world) (tbl : list student) (s : student) :
  env_fault e = NoFault ->
  students w = Some tbl ->
  lookup r tbl = Some s ->
  b_name b = JUndefined ->
  b_age b = JUndefined ->
  b_city b = JUndefined ->
  put_students_rollnumber e r b w
  = (Returned
       (Response 200
          (Envelope true (Some "Student updated successfully")
             (Some (Row s)) None)),
     w).
Proof.
  intros He Hw Hr Hn Ha Hc.
  rewrite (@put_found_run e r b w tbl s None None None He Hw Hr).
  - rewrite set_row_nothing, update_nothing.
    destruct w as [t q l]; simpl in *. now subst t.
  - unfold update_accepts. now rewrite Hn, Ha, Hc.
Qed.

Lemma put_empty_body_identity_witness :
  put_students_rollnumber online "R2"
    (Body JUndefined JUndefined JUndefined JUndefined) campus
  = (Returned
       (Response 200
          (Envelope true (Some "Student updated successfully")
             (Some (Row alice)) None)),
     campus).
Proof.
  apply (@put_empty_body_identity online "R2"
           (Body JUndefined JUndefined JUndefined JUndefined)
           campus [alice; bob] alice); reflexivity.
Defined.

Lemma prepareValue_null_as_absent (v : jsval) :
  prepareValue (null_as_absent v) = prepareValue v.
Proof. now destruct v. Qed.

(** C9.  The update handler does the same on a body and on that body
    with its [null] fields left out: same response, same world.  On
    every path, the row stored under the roll number keeps the value of
    each of [name], [age], [city] that the body gives as [null]. *)
Theorem put_null_is_absent (e : env) (r : string) (b : body) (w : world)
  (tbl : list student) (s : student) :
  put_students_rollnumber e r (drop_nulls b) w
  = put_students_rollnumber e r b w /\
  (students w = Some tbl ->
   lookup r tbl = Some s ->
   exists tbl' s',
     students (snd (put_students_rollnumber e r b w)) = Some tbl' /\
     lookup r tbl' = Some s' /\
     (b_name b = JNull -> s_name s' = s_name s) /\
     (b_age b = JNull -> s_age s' = s_age s) /\
     (b_city b = JNull -> s_city s' = s_city s)).
Proof.
  split.
  - unfold put_students_rollnumber, drop_nulls; simpl.
    now rewrite !prepareValue_null_as_absent.
  - intros Hw Hr.
    destruct (put_keeps_unsupplied e r b w Hw Hr)
      as (tbl' & s' & Ht & Hl & _ & _ & _ & Hn & Ha & Hc).
    exists tbl', s'. repeat split; auto.
    + intros H. apply Hn. now rewrite H.
    + intros H. apply Ha. now rewrite H.
    + intros H. apply Hc. now rewrite H.
Qed.

Lemma put_null_is_absent_witness :
  put_students_rollnumber online "R1"
    (drop_nulls (Body JNull (JNum 30) JUndefined JNull)) campus
  = put_students_rollnumber online "R1"
      (Body JNull (JNum 30) JUndefined JNull) campus /\
  exists tbl' s',
    students (snd (put_students_rollnumber online "R1"
                     (Body JNull (JNum 30) JUndefined JNull) campus))
    = Some tbl' /\
    lookup "R1" tbl' = Some s' /\
    (b_name (Body JNull (JNum 30) JUndefined JNull) = JNull ->
     s_name s' = s_name bob) /\
    (b_age (Body JNull (JNum 30) JUndefined JNull) = JNull ->
     s_age s' = s_age bob) /\
    (b_city (Body JNull (JNum 30) JUndefined JNull) = JNull ->
     s_city s' = s_city bob).
Proof.
  split.
  - apply (@put_null_is_absent online "R1"
             (Body JNull (JNum 30) JUndefined JNull) campus
             [alice; bob] bob).
  - apply (proj2 (@put_null_is_absent online "R1"
                    (Body JNull (JNum 30) JUndefined JNull) campus
                    [alice; bob] bob)); reflexivity.
Defined.

(** ** Start-up *)

Lemma connectDB_run (e : env) (w : world) :
  connectDB e w
  = match env_fault e with
    | NoFault => (Returned true, w)
    | ConnectFails => (Returned false, w)
    | QueryFails =>
        (Returned false,
         World (students w) (students_id_seq w) (S (leased w)))
    end.
Proof.
  destruct w as [t q l].
  unfold connectDB, try_catch, bind, pool_connect, client_query,
    sql_select_now.
  now destruct (env_fault e).
Qed.

(** C7.  The connectivity check never raises: it returns a boolean, and
    it returns [false] whenever connecting or the liveness query fails.
    When it returns [false], all that the process does is exit with
    status 1: it does not listen on any port (and it does not create the
    table). *)
Theorem startup_failure_exits (e1 e2 : env) (w : world) :
  (exists connected w', connectDB e1 w = (Returned connected, w')) /\
  (env_fault e1 <> NoFault -> fst (connectDB e1 w) = Returned false) /\
  (fst (connectDB e1 w) = Returned false ->
   exists w',
     startServer e1 e2 w = (Returned [Exit 1], w') /\
     students w' = students w /\
     1 <> 0 /\
     forall port, ~ In (Listen port) [Exit 1]).
Proof.
  rewrite connectDB_run. repeat split.
  - destruct (env_fault e1); eexists _, _; reflexivity.
  - destruct (env_fault e1); [congruence|reflexivity|reflexivity].
  - intros Hfalse. unfold startServer, try_catch, bind.
    rewrite connectDB_run.
    destruct (env_fault e1); simpl in *; [discriminate| |];
      (eexists; split; [reflexivity|]);
      (split; [reflexivity|]);
      (split; [discriminate|]);
      intros port [H|[]]; discriminate H.
Qed.

Lemma startup_failure_exits_witness :
  fst (connectDB unreachable no_database) = Returned false /\
  exists w',
    startServer unreachable online no_database = (Returned [Exit 1], w') /\
    students w' = students no_database /\
    1 <> 0 /\
    forall port, ~ In (Listen port) [Exit 1].
Proof.
  destruct (startup_failure_exits unreachable online no_database)
    as (_ & Hfalse & Hexit).
  split.
  - apply Hfalse. discriminate.
  - apply Hexit. reflexivity.
Defined.

(** When the check succeeds the process creates the table if need be
    and listens on port 9000. *)
Lemma startup_success_listens (e1 e2 : env) (w : world) :
  env_fault e1 = NoFault ->
  fst (startServer e1 e2 w) = Returned [Listen 9000].
Proof.
  intros He. unfold startServer, try_catch, bind.
  rewrite connectDB_run, He.
  destruct w as [[t|] q l], e2 as [[| |] now];
    reflexivity.
Qed.

(** ** The paths on which the query returns *)

Lemma get_found_run (e : env) (r : string) (w : world)
  (tbl : list student) (s : student) :
  env_fault e = NoFault ->
  students w = Some tbl ->
  lookup r tbl = Some s ->
  get_students_rollnumber e r w
  = (Returned (Response 200 (Envelope true None (Some (Row s)) None)), w).
Proof.
  intros He Hw Hr. destruct w as [t q l]; simpl in Hw; subst t.
  destruct (lookup_filter r tbl Hr) as [rest Hrest].
  unfold get_students_rollnumber, try_catch, bind, pool_connect,
    client_query, sql_select_one, bind, relation.
  rewrite He; simpl. now rewrite Hrest.
Qed.

Lemma unique_index_miss (r : string) (i : Z) (tbl : list student) :
  lookup r tbl = None ->
  Forall (fun x => s_id x < i) tbl ->
  existsb (fun x => (s_id x =? i) || has_rollnumber r x) tbl = false.
Proof.
  unfold lookup. intros Hr Hid.
  induction Hid as [|x tbl Hx Hid IH]; simpl in *; [reflexivity|].
  destruct (has_rollnumber r x); [discriminate|].
  rewrite (IH Hr), !orb_false_r. apply Z.eqb_neq. lia.
Qed.

(** A create request with a roll number that is not in use: 201, the new
    row at the end of the table, and the connection back in the pool. *)
Lemma post_created_run (e : env) (b : body) (w : world)
  (tbl : list student) (n : string) (a : Z) (r c : string) :
  env_fault e = NoFault ->
  students w = Some tbl ->
  all_fields_present b = true ->
  insert_accepts b n a r c ->
  lookup r tbl = None ->
  Forall (fun x => s_id x < students_id_seq w + 1) tbl ->
  students_id_seq w < int4_max ->
  let row := Student (students_id_seq w + 1) n a r c (env_now e) in
  post_students e b w
  = (Returned
       (Response 201
          (Envelope true (Some "Student created successfully")
             (Some (Row row)) None)),
     World (Some (tbl ++ [row])%list) (students_id_seq w + 1) (leased w)).
Proof.
  intros He Hw Hb (Hn & Ha & Hr & Hc) Hs Hid Hq row.
  destruct w as [t q l]; simpl in Hw, Hid, Hq; subst t.
  apply Z.ltb_lt in Hq.
  unfold post_students, try_catch.
  rewrite (present_guard b Hb).
  unfold bind, pool_connect, client_query, sql_insert, bind, relation,
    lift, store, nextval.
  rewrite He; simpl. rewrite Hn, Ha, Hr, Hc; simpl. rewrite Hq; simpl.
  rewrite unique_index_miss; [reflexivity|exact Hs|exact Hid].
Qed.

Example get_students_dropped :
  get_students dropped campus
  = (Returned
       (Response 500
          (Envelope false (Some "Error fetching students") None None)),
     World (Some [alice; bob]) 2 1).
Proof. reflexivity. Qed.

Example post_carol :
  post_students online
    (Body (JStr "Carol") (JStr "22") (JNum 7) (JStr "Oslo")) campus
  = (Returned
       (Response 201
          (Envelope true (Some "Student created successfully")
             (Some (Row (Student 3 "Carol" 22 "7" "Oslo" 2000))) None)),
     World (Some [alice; bob; Student 3 "Carol" 22 "7" "Oslo" 2000]) 3 0).
Proof. reflexivity. Qed.

(** ** The invariant of the table *)

Lemma existsb_unique_index (r : string) (i : Z) (tbl : list student) :
  existsb (fun x => (s_id x =? i) || has_rollnumber r x) tbl = false ->
  ~ In r (map s_rollnumber tbl) /\ Forall (fun x => s_id x <> i) tbl.
Proof.
  intros H. split.
  - intros Hin. apply in_map_iff in Hin as (x & Hx & Hin).
    assert (Hex : existsb (fun x => (s_id x =? i) || has_rollnumber r x)
                    tbl = true).
    { apply existsb_exists. exists x. split; [exact Hin|].
      unfold has_rollnumber. rewrite Hx, String.eqb_refl.
      apply orb_true_r. }
    congruence.
  - apply Forall_forall. intros x Hin Hx.
    assert (Hex : existsb (fun x => (s_id x =? i) || has_rollnumber r x)
                    tbl = true).
    { apply existsb_exists. exists x. split; [exact Hin|].
      apply orb_true_iff. left. now apply Z.eqb_eq. }
    congruence.
Qed.

Lemma consistent_pool (t : option (list student)) (q : Z) (l l' : nat) :
  consistent (World t q l) -> consistent (World t q l').
Proof. exact (fun H => H). Qed.

Lemma consistent_nextval (tbl : list student) (q : Z) (l l' : nat) :
  consistent (World (Some tbl) q l) ->
  consistent (World (Some tbl) (q + 1) l').
Proof.
  unfold consistent; simpl. intros [Hnd Hid]. split; [exact Hnd|].
  eapply Forall_impl; [|exact Hid]. simpl. intros x Hx. lia.
Qed.

(** Taking rows away keeps the remaining roll numbers distinct. *)
Lemma distinct_rollnumbers_filter (keep : student -> bool)
  (tbl : list student) :
  NoDup (map s_rollnumber tbl) ->
  NoDup (map s_rollnumber (filter keep tbl)).
Proof.
  induction tbl as [|x tbl IH]; simpl; intros Hnd; [exact Hnd|].
  inversion Hnd as [|? ? Hx Hrest]; subst.
  destruct (keep x); simpl; [|now apply IH].
  constructor; [|now apply IH].
  intros Hin. apply Hx.
  apply in_map_iff in Hin as (y & Hy & Hin).
  apply filter_In in Hin as [Hin _].
  rewrite <- Hy. now apply in_map.
Qed.

Lemma sql_insert_consistent (p1 p2 p3 p4 : option string) (now : Z)
  (w : world) :
  consistent w -> consistent (snd (sql_insert p1 p2 p3 p4 now w)).
Proof.
  intros Hc. destruct w as [[tbl|] q l];
    unfold sql_insert, bind, relation, lift, nextval, store, throw; simpl;
    [|exact Hc].
  destruct (on_param (varchar 100) p1) as [n|]; simpl; [|exact Hc].
  destruct (on_param int4in p2) as [a|]; simpl; [|exact Hc].
  destruct (on_param (varchar 50) p3) as [r|]; simpl; [|exact Hc].
  destruct (on_param (varchar 100) p4) as [c|]; simpl; [|exact Hc].
  destruct (q <? int4_max); simpl; [|exact Hc].
  assert (Hc' : consistent (World (Some tbl) (q + 1) l))
    by now apply consistent_nextval with l.
  destruct n as [n|]; simpl; [|exact Hc'].
  destruct a as [a|]; simpl; [|exact Hc'].
  destruct r as [r|]; simpl; [|exact Hc'].
  destruct c as [c|]; simpl; [|exact Hc'].
  destruct (existsb _ tbl) eqn:Hex; simpl; [exact Hc'|].
  destruct Hc' as [Hnd Hid].
  apply existsb_unique_index in Hex as [Hr _].
  split; simpl in *.
  - rewrite map_app; simpl. apply NoDup_app; auto.
    + repeat constructor. intros [].
    + intros x Hx [<-|[]]. contradiction.
  - apply Forall_app. split; [exact Hid|].
    repeat constructor. simpl. lia.
Qed.

Lemma sql_update_consistent (p1 p2 p3 : option string) (r : string)
  (now : Z) (w : world) :
  consistent w -> consistent (snd (sql_update p1 p2 p3 r now w)).
Proof.
  intros Hc. destruct w as [[tbl|] q l];
    unfold sql_update, bind, relation, lift, store; simpl; [|exact Hc].
  destruct (on_param (varchar 100) p1) as [n|]; simpl; [|exact Hc].
  destruct (on_param int4in p2) as [a|]; simpl; [|exact Hc].
  destruct (on_param (varchar 100) p3) as [c|]; simpl; [|exact Hc].
  destruct Hc as [Hnd Hid]. split; simpl in *.
  - rewrite map_map.
    erewrite map_ext; [exact Hnd|].
    intros x; simpl. now destruct (has_rollnumber r x).
  - apply Forall_map. eapply Forall_impl; [|exact Hid].
    intros x Hx; simpl. now destruct (has_rollnumber r x).
Qed.

Lemma sql_delete_consistent (r : string) (now : Z) (w : world) :
  consistent w -> consistent (snd (sql_delete r now w)).
Proof.
  intros Hc. destruct w as [[tbl|] q l];
    unfold sql_delete, bind, relation, store; simpl; [|exact Hc].
  destruct Hc as [Hnd Hid]. split; simpl in *.
  - now apply distinct_rollnumbers_filter.
  - apply Forall_forall. intros x Hx.
    apply filter_In in Hx as [Hx _].
    rewrite Forall_forall in Hid. now apply Hid.
Qed.

(** The shape shared by the five handlers: connect, one statement,
    release, respond; the [catch] block only responds. *)
Lemma handler_consistent {A} (e : env) (stmt : Z -> M A)
  (k : A -> M response) (h : error -> M response) (w : world) :
  (forall w0, consistent w0 -> consistent (snd (stmt (env_now e) w0))) ->
  (forall a w0, snd (k a w0) = w0) ->
  (forall err w0, snd (h err w0) = w0) ->
  consistent w ->
  consistent
    (snd (try_catch
            (pool_connect e;;
             rows <- client_query e stmt;;
             client_release;;
             k rows)
            h w)).
Proof.
  intros Hstmt Hk Hh Hc. destruct w as [t q l].
  unfold try_catch, bind, pool_connect, client_query, client_release.
  destruct (env_fault e); simpl.
  - specialize (Hstmt (World t q (S l)) Hc).
    destruct (stmt (env_now e) (World t q (S l))) as [[a|err] [t' q' l']];
      simpl in *.
    + specialize (Hk a (World t' q' (Nat.pred l'))).
      destruct (k a (World t' q' (Nat.pred l'))) as [[resp|err] w'];
        simpl in *; [now subst w'|].
      rewrite Hh. now subst w'.
    + now rewrite Hh.
  - now rewrite Hh.
  - now rewrite Hh.
Qed.

Lemma post_catch_world (err : error) (w : world) :
  snd (match code err with
       | Some "23505" =>
           send 409 false (Some "Roll number already exists") None None
       | _ => send 500 false (Some "Error creating student") None None
       end w) = w.
Proof.
  destruct (code err) as [c|]; [|reflexivity].
  repeat match goal with
         | |- context [match ?x with _ => _ end] =>
             destruct x; try reflexivity
         end.
Qed.

(** Every handler keeps the invariant, on all of its paths. *)
Lemma handlers_consistent (e : env) (r : string) (b : body) (w : world) :
  consistent w ->
  consistent (snd (get_students e w)) /\
  consistent (snd (get_students_rollnumber e r w)) /\
  consistent (snd (post_students e b w)) /\
  consistent (snd (put_students_rollnumber e r b w)) /\
  consistent (snd (delete_students_rollnumber e r w)).
Proof.
  intros Hc. repeat split.
  - apply handler_consistent; auto.
    intros w0 H0. unfold sql_select_all, bind, relation.
    now destruct (students w0).
  - apply handler_consistent; auto.
    + intros w0 H0. unfold sql_select_one, bind, relation.
      now destruct (students w0).
    + now intros [|row rows] w0.
  - unfold post_students.
    destruct (negb (truthy (b_name b)) || negb (truthy (b_age b))
              || negb (truthy (b_rollnumber b))
              || negb (truthy (b_city b))); [exact Hc|].
    apply handler_consistent; auto.
    + intros w0. apply sql_insert_consistent.
    + intros err w0. apply post_catch_world.
  - apply handler_consistent; auto.
    + intros w0. apply sql_update_consistent.
    + now intros [|row rows] w0.
  - apply handler_consistent; auto.
    + intros w0. apply sql_delete_consistent.
    + now intros [|row rows] w0.
Qed.

(** Under the invariant, a row of the table is the one that [lookup]
    finds for its roll number. *)
Lemma lookup_unique (tbl : list student) (s : student) :
  NoDup (map s_rollnumber tbl) ->
  In s tbl ->
  lookup (s_rollnumber s) tbl = Some s.
Proof.
  unfold lookup. induction tbl as [|x tbl IH]; simpl; [contradiction|].
  intros Hnd Hin. inversion Hnd as [|? ? Hx Hnd']; subst.
  destruct Hin as [->|Hin].
  - unfold has_rollnumber. now rewrite String.eqb_refl.
  - destruct (has_rollnumber (s_rollnumber s) x) eqn:Hsx; [|now apply IH].
    exfalso. apply Hx. apply String.eqb_eq in Hsx. rewrite Hsx.
    now apply in_map.
Qed.

(** ** No handler raises *)

Lemma handler_responds {A} (e : env) (stmt : Z -> M A)
  (k : A -> M response) (h : error -> M response) (w : world) :
  (forall a w0, exists resp, k a w0 = (Returned resp, w0)) ->
  (forall err w0, exists resp, h err w0 = (Returned resp, w0)) ->
  exists resp w',
    try_catch
      (pool_connect e;;
       rows <- client_query e stmt;;
       client_release;;
       k rows)
      h w
    = (Returned resp, w').
Proof.
  intros Hk Hh. destruct w as [t q l].
  unfold try_catch, bind, pool_connect, client_query, client_release.
  destruct (env_fault e); simpl.
  - destruct (stmt (env_now e) (World t q (S l))) as [[a|err] w1];
      simpl.
    + destruct (Hk a (World (students w1) (students_id_seq w1)
                        (Nat.pred (leased w1)))) as [resp ->].
      now eexists _, _.
    + destruct (Hh err w1) as [resp ->]. now eexists _, _.
  - destruct (Hh ConnectionError (World t q l)) as [resp ->].
    now eexists _, _.
  - destruct (Hh ConnectionError (World t q (S l))) as [resp ->].
    now eexists _, _.
Qed.

Lemma post_catch_responds (err : error) (w : world) :
  exists resp,
    match code err with
    | Some "23505" =>
        send 409 false (Some "Roll number already exists") None None
    | _ => send 500 false (Some "Error creating student") None None
    end w = (Returned resp, w).
Proof.
  destruct (code err) as [c|]; [|now eexists].
  repeat match goal with
         | |- context [match ?x with _ => _ end] =>
             destruct x; try (now eexists)
         end.
Qed.

(** Whatever the environment, the body and the world, each of the five
    handlers ends by sending a response. *)
Lemma handlers_respond (e : env) (r : string) (b : body) (w : world) :
  (exists resp w', get_students e w = (Returned resp, w')) /\
  (exists resp w', get_students_rollnumber e r w = (Returned resp, w')) /\
  (exists resp w', post_students e b w = (Returned resp, w')) /\
  (exists resp w', put_students_rollnumber e r b w = (Returned resp, w')) /\
  (exists resp w', delete_students_rollnumber e r w = (Returned resp, w')).
Proof.
  repeat split.
  - apply handler_responds; intros; now eexists.
  - apply handler_responds; [intros [|row rows] w0|intros]; now eexists.
  - unfold post_students.
    destruct (negb (truthy (b_name b)) || negb (truthy (b_age b))
              || negb (truthy (b_rollnumber b))
              || negb (truthy (b_city b))).
    + unfold try_catch, send, ret. now eexists _, _.
    + apply handler_responds; [intros; now eexists|].
      apply post_catch_responds.
  - apply handler_responds; [intros [|row rows] w0|intros]; now eexists.
  - apply handler_responds; [intros [|row rows] w0|intros]; now eexists.
Qed.

(** * Further properties of the handlers *)

(** ** The shape of a handler, as one equation *)

Lemma handler_run {A} (e : env) (stmt : Z -> M A) (k : A -> M response)
  (h : error -> M response) (w : world) :
  try_catch
    (pool_connect e;;
     rows <- client_query e stmt;;
     client_release;;
     k rows)
    h w
  = match env_fault e with
    | ConnectFails => h ConnectionError w
    | QueryFails => h ConnectionError (checked_out w)
    | NoFault =>
        match stmt (env_now e) (checked_out w) with
        | (Returned rows, w1) => try_catch (k rows) h (given_back w1)
        | (Thrown err, w1) => h err w1
        end
    end.
Proof.
  unfold try_catch, bind, pool_connect, client_query, client_release,
    checked_out, given_back.
  destruct (env_fault e); simpl; try reflexivity.
  now destruct (stmt (env_now e) _) as [[rows|err] w1].
Qed.

Lemma post_catch_cases (err : error) (w : world) :
  (code err = Some "23505" /\
   match code err with
   | Some "23505" =>
       send 409 false (Some "Roll number already exists") None None
   | _ => send 500 false (Some "Error creating student") None None
   end w
   = send 409 false (Some "Roll number already exists") None None w) \/
  (code err <> Some "23505" /\
   match code err with
   | Some "23505" =>
       send 409 false (Some "Roll number already exists") None None
   | _ => send 500 false (Some "Error creating student") None None
   end w
   = send 500 false (Some "Error creating student") None None w).
Proof.
  destruct (code err) as [c|];
    [|right; split; [discriminate|reflexivity]].
  repeat match goal with
         | |- context [match ?x with _ => _ end] =>
             destruct x;
             try (right; split; [discriminate|reflexivity])
         end.
  left. split; reflexivity.
Qed.

(** The statements leave the pool alone. *)
Lemma sql_leased (p1 p2 p3 p4 : option string) (r : string) (now : Z)
  (w : world) :
  leased (snd (sql_select_all now w)) = leased w /\
  leased (snd (sql_select_one r now w)) = leased w /\
  leased (snd (sql_insert p1 p2 p3 p4 now w)) = leased w /\
  leased (snd (sql_update p1 p2 p3 r now w)) = leased w /\
  leased (snd (sql_delete r now w)) = leased w.
Proof.
  destruct w as [[tbl|] q l];
    unfold sql_select_all, sql_select_one, sql_insert, sql_update,
      sql_delete, bind, relation, lift, nextval, store, throw; simpl;
    repeat split;
    repeat match goal with
           | |- context [?a <? ?b] =>
               destruct (a <? b); simpl; try reflexivity
           | |- context [match ?x with _ => _ end] =>
               destruct x; simpl; try reflexivity
           end.
Qed.

(** ** Every request is answered, and the envelope agrees with the status *)

Ltac agree :=
  unfold envelope_agrees; simpl;
  split;
  [ split;
    [ first [discriminate | intros _; auto]
    | first [reflexivity | intros [H|H]; discriminate H] ]
  | first [discriminate | intros _; repeat split; discriminate] ].

Ltac sends := intros; eexists; split; [reflexivity|].

Lemma handler_sends {A} (Q : response -> Prop) (e : env) (stmt : Z -> M A)
  (k : A -> M response) (h : error -> M response) (w : world) :
  (forall a w0, exists resp, k a w0 = (Returned resp, w0) /\ Q resp) ->
  (forall err w0, exists resp, h err w0 = (Returned resp, w0) /\ Q resp) ->
  exists resp w',
    try_catch
      (pool_connect e;;
       rows <- client_query e stmt;;
       client_release;;
       k rows)
      h w
    = (Returned resp, w') /\ Q resp.
Proof.
  intros Hk Hh. rewrite handler_run.
  destruct (env_fault e).
  - destruct (stmt (env_now e) (checked_out w)) as [[rows|err] w1].
    + destruct (Hk rows (given_back w1)) as (resp & Hrun & HQ).
      unfold try_catch. rewrite Hrun. now eexists _, _.
    + destruct (Hh err w1) as (resp & -> & HQ). now eexists _, _.
  - destruct (Hh ConnectionError w) as (resp & -> & HQ). now eexists _, _.
  - destruct (Hh ConnectionError (checked_out w)) as (resp & -> & HQ).
    now eexists _, _.
Qed.

Lemma post_catch_agrees (err : error) (w : world) :
  exists resp,
    match code err with
    | Some "23505" =>
        send 409 false (Some "Roll number already exists") None None
    | _ => send 500 false (Some "Error creating student") None None
    end w = (Returned resp, w) /\
    envelope_agrees resp /\ caught (status resp).
Proof.
  destruct (post_catch_cases err w) as [[_ ->]|[_ ->]];
    eexists; (split; [reflexivity|]); (split; [agree|]);
    unfold caught; simpl; auto.
Qed.

Lemma handlers_agree (e : env) (r : string) (b : body) (w : world) :
  (exists resp w',
      get_students e w = (Returned resp, w') /\ envelope_agrees resp) /\
  (exists resp w',
      get_students_rollnumber e r w = (Returned resp, w') /\
      envelope_agrees resp) /\
  (exists resp w',
      post_students e b w = (Returned resp, w') /\ envelope_agrees resp) /\
  (exists resp w',
      put_students_rollnumber e r b w = (Returned resp, w') /\
      envelope_agrees resp) /\
  (exists resp w',
      delete_students_rollnumber e r w = (Returned resp, w') /\
      envelope_agrees resp).
Proof.
  repeat split.
  - apply handler_sends; sends; agree.
  - apply handler_sends; [intros [|row rows] w0|intros]; sends; agree.
  - unfold post_students.
    destruct (negb (truthy (b_name b)) || negb (truthy (b_age b))
              || negb (truthy (b_rollnumber b))
              || negb (truthy (b_city b))).
    + unfold try_catch, send, ret. eexists _, _.
      split; [reflexivity|agree].
    + apply handler_sends; [sends; agree|].
      intros err w0.
      destruct (post_catch_agrees err w0) as (resp & Hrun & Hag & _).
      now exists resp.
  - apply handler_sends; [intros [|row rows] w0|intros]; sends; agree.
  - apply handler_sends; [intros [|row rows] w0|intros]; sends; agree.
Qed.

Lemma app_replies_run (e : env) (req : request) (w : world) :
  exists rep w',
    app e req w = (Returned rep, w') /\
    (forall r, rep = Answered r -> envelope_agrees r) /\
    (req <> GetRoot -> exists r, rep = Answered r).
Proof.
  destruct (handlers_agree e
              match req with
              | GetStudent r | PutStudent r _ | DeleteStudent r => r
              | _ => ""
              end
              match req with
              | PostStudents b | PutStudent _ b => b
              | _ => carol
              end w)
    as (H1 & H2 & H3 & H4 & H5).
  destruct req as [| |r|b|r b|r]; unfold app, bind.
  - unfold get_root, ret. eexists _, _. split; [reflexivity|].
    split; [discriminate|congruence].
  - destruct H1 as (resp & w' & -> & Hag). eexists _, _.
    split; [reflexivity|]. split; [now intros r0 [= <-]|now eexists].
  - destruct H2 as (resp & w' & -> & Hag). eexists _, _.
    split; [reflexivity|]. split; [now intros r0 [= <-]|now eexists].
  - destruct H3 as (resp & w' & -> & Hag). eexists _, _.
    split; [reflexivity|]. split; [now intros r0 [= <-]|now eexists].
  - destruct H4 as (resp & w' & -> & Hag). eexists _, _.
    split; [reflexivity|]. split; [now intros r0 [= <-]|now eexists].
  - destruct H5 as (resp & w' & -> & Hag). eexists _, _.
    split; [reflexivity|]. split; [now intros r0 [= <-]|now eexists].
Qed.

(** X1.  No handler lets an error escape: whatever the request, the
    environment and the world, the application does not raise.  Every
    reply that a student route sends has an envelope that agrees with
    its status: [success] is true exactly when the status is 200 or 201,
    and when [success] is false there is a message and neither [data]
    nor [count]. *)
Theorem app_replies (e : env) (req : request) (w : world) :
  (forall err w', app e req w <> (Thrown err, w')) /\
  (forall rep w',
      app e req w = (Returned rep, w') ->
      (forall r, rep = Answered r -> envelope_agrees r) /\
      (req <> GetRoot -> exists r, rep = Answered r)).
Proof.
  destruct (app_replies_run e req w) as (rep0 & w0 & Hrun & Hag & Hans).
  split.
  - intros err w' H. rewrite Hrun in H. discriminate.
  - intros rep w' H. rewrite Hrun in H. injection H as <- <-. auto.
Qed.


(** ** The pool, route by route *)

Lemma handler_accounting {A} (e : env) (stmt : Z -> M A)
  (k : A -> M response) (h : error -> M response) (w : world) :
  (forall w0, leased (snd (stmt (env_now e) w0)) = leased w0) ->
  (forall a w0,
      exists resp, k a w0 = (Returned resp, w0) /\ ~ caught (status resp)) ->
  (forall err w0,
      exists resp, h err w0 = (Returned resp, w0) /\ caught (status resp)) ->
  exists resp w',
    try_catch
      (pool_connect e;;
       rows <- client_query e stmt;;
       client_release;;
       k rows)
      h w
    = (Returned resp, w') /\
    (leased w' = leased w \/ leased w' = S (leased w)) /\
    (~ caught (status resp) -> leased w' = leased w) /\
    (env_fault e = ConnectFails -> leased w' = leased w) /\
    (env_fault e = QueryFails -> leased w' = S (leased w)).
Proof.
  intros Hstmt Hk Hh. rewrite handler_run.
  destruct (env_fault e).
  - specialize (Hstmt (checked_out w)).
    destruct (stmt (env_now e) (checked_out w)) as [[rows|err] w1];
      simpl in Hstmt.
    + destruct (Hk rows (given_back w1)) as (resp & Hrun & Hst).
      unfold try_catch. rewrite Hrun. eexists _, _.
      split; [reflexivity|]. simpl. rewrite Hstmt. simpl.
      repeat split; auto; discriminate.
    + destruct (Hh err w1) as (resp & -> & Hst). eexists _, _.
      split; [reflexivity|]. rewrite Hstmt. simpl.
      repeat split; auto; try discriminate. now intros [].
  - destruct (Hh ConnectionError w) as (resp & -> & Hst). eexists _, _.
    split; [reflexivity|]. repeat split; auto; discriminate.
  - destruct (Hh ConnectionError (checked_out w)) as (resp & -> & Hst).
    eexists _, _. split; [reflexivity|]. simpl.
    repeat split; auto; try discriminate. now intros [].
Qed.

Ltac not_caught :=
  intros; eexists; split; [reflexivity|];
  unfold caught; simpl; intros [H|H]; discriminate H.

Ltac is_caught :=
  intros; eexists; split; [reflexivity|]; unfold caught; simpl; auto.

Lemma app_leased (e : env) (req : request) (w : world) :
  exists rep w',
    app e req w = (Returned rep, w') /\
    (leased w' = leased w \/ leased w' = S (leased w)) /\
    (forall r, rep = Answered r -> ~ caught (status r) ->
               leased w' = leased w) /\
    (env_fault e = ConnectFails -> leased w' = leased w) /\
    (req = GetRoot -> leased w' = leased w).
Proof.
  assert (Hwrap : forall (m : M response),
    (exists resp w',
        m w = (Returned resp, w') /\
        (leased w' = leased w \/ leased w' = S (leased w)) /\
        (~ caught (status resp) -> leased w' = leased w) /\
        (env_fault e = ConnectFails -> leased w' = leased w)) ->
    req <> GetRoot ->
    exists rep w',
      bind m (fun r => ret (Answered r)) w = (Returned rep, w') /\
      (leased w' = leased w \/ leased w' = S (leased w)) /\
      (forall r, rep = Answered r -> ~ caught (status r) ->
                 leased w' = leased w) /\
      (env_fault e = ConnectFails -> leased w' = leased w) /\
      (req = GetRoot -> leased w' = leased w)).
  { intros m (resp & w' & Hrun & H1 & H2 & H3) Hreq.
    unfold bind. rewrite Hrun. eexists _, _. split; [reflexivity|].
    split; [exact H1|]. split; [intros r [= <-]; exact H2|].
    split; [exact H3|]. intros Hroot. contradiction. }
  destruct req as [| |r|b|r b|r]; unfold app.
  - unfold bind, get_root, ret. eexists _, _. split; [reflexivity|].
    repeat split; auto.
  - apply Hwrap; [|discriminate].
    destruct (@handler_accounting _ e sql_select_all
                (fun rows =>
                   send 200 true None (Some (Rows rows))
                        (Some (List.length rows)))
                (fun _ =>
                   send 500 false (Some "Error fetching students")
                        None None) w)
      as (resp & w' & Hrun & H1 & H2 & H3 & _).
    + intros w0. apply (sql_leased None None None None "").
    + not_caught.
    + is_caught.
    + exists resp, w'. auto.
  - apply Hwrap; [|discriminate].
    unfold get_students_rollnumber.
    edestruct (@handler_accounting _ e (sql_select_one r))
      as (resp & w' & Hrun & H1 & H2 & H3 & _);
      [| | |exists resp, w'; split; [exact Hrun|auto]].
    + intros w0. apply (sql_leased None None None None r).
    + intros [|row rows] w0; not_caught.
    + is_caught.
  - apply Hwrap; [|discriminate].
    unfold post_students.
    destruct (negb (truthy (b_name b)) || negb (truthy (b_age b))
              || negb (truthy (b_rollnumber b))
              || negb (truthy (b_city b))).
    + unfold try_catch, send, ret. eexists _, _.
      split; [reflexivity|]. auto.
    + edestruct (@handler_accounting _ e
                   (sql_insert (prepareValue (b_name b))
                      (prepareValue (b_age b))
                      (prepareValue (b_rollnumber b))
                      (prepareValue (b_city b))))
        as (resp & w' & Hrun & H1 & H2 & H3 & _);
        [| | |exists resp, w'; split; [exact Hrun|auto]].
      * intros w0. apply (sql_leased _ _ _ _ "").
      * not_caught.
      * intros err w0.
        destruct (post_catch_agrees err w0) as (resp & Hrun & _ & Hst).
        now exists resp.
  - apply Hwrap; [|discriminate].
    unfold put_students_rollnumber.
    edestruct (@handler_accounting _ e
                 (sql_update (prepareValue (b_name b))
                    (prepareValue (b_age b)) (prepareValue (b_city b)) r))
      as (resp & w' & Hrun & H1 & H2 & H3 & _);
      [| | |exists resp, w'; split; [exact Hrun|auto]].
    + intros w0. apply (sql_leased _ _ _ None r).
    + intros [|row rows] w0; not_caught.
    + is_caught.
  - apply Hwrap; [|discriminate].
    unfold delete_students_rollnumber.
    edestruct (@handler_accounting _ e (sql_delete r))
      as (resp & w' & Hrun & H1 & H2 & H3 & _);
      [| | |exists resp, w'; split; [exact Hrun|auto]].
    + intros w0. apply (sql_leased None None None None r).
    + intros [|row rows] w0; not_caught.
    + is_caught.
Qed.

(** X2.  A request takes at most one connection out of the pool and
    never puts back more than it took.  When the reply is not one of the
    [catch] block (neither 500 nor 409), the connection is back in the
    pool; when connecting failed, none was taken.  The root route never
    takes one. *)
Theorem app_pool_accounting (e : env) (req : request) (w : world) :
  exists rep w',
    app e req w = (Returned rep, w') /\
    (leased w' = leased w \/ leased w' = S (leased w)) /\
    (forall r, rep = Answered r -> ~ caught (status r) ->
               leased w' = leased w) /\
    (env_fault e = ConnectFails -> leased w' = leased w) /\
    (req = GetRoot -> leased w' = leased w).
Proof. exact (app_leased e req w). Qed.


(** ** Invariants of the table, over whole runs *)

Section Invariant.

Variable P : world -> Prop.

Hypothesis P_pool :
  forall t q l l', P (World t q l) -> P (World t q l').
Hypothesis P_create :
  forall now w, P w -> P (snd (sql_create_table now w)).
Hypothesis P_insert :
  forall p1 p2 p3 p4 now w, P w -> P (snd (sql_insert p1 p2 p3 p4 now w)).
Hypothesis P_update :
  forall p1 p2 p3 r now w, P w -> P (snd (sql_update p1 p2 p3 r now w)).
Hypothesis P_delete :
  forall r now w, P w -> P (snd (sql_delete r now w)).

Lemma handler_keeps {A B} (e : env) (stmt : Z -> M A) (k : A -> M B)
  (h : error -> M B) (w : world) :
  (forall w0, P w0 -> P (snd (stmt (env_now e) w0))) ->
  (forall a w0, snd (k a w0) = w0) ->
  (forall err w0, snd (h err w0) = w0) ->
  P w ->
  P (snd (try_catch
            (pool_connect e;;
             rows <- client_query e stmt;;
             client_release;;
             k rows)
            h w)).
Proof.
  intros Hstmt Hk Hh Hw. destruct w as [t q l].
  unfold try_catch, bind, pool_connect, client_query, client_release.
  destruct (env_fault e); simpl; rewrite ?Hh; eauto.
  specialize (Hstmt (World t q (S l)) (P_pool (S l) Hw)).
  destruct (stmt (env_now e) (World t q (S l))) as [[a|err] [t' q' l']];
    simpl in *; [|now rewrite Hh].
  specialize (Hk a (World t' q' (Nat.pred l'))).
  destruct (k a (World t' q' (Nat.pred l'))) as [[b|err] w'];
    simpl in *; subst w'; rewrite ?Hh; eauto.
Qed.

Lemma select_keeps (r : string) (now : Z) (w : world) :
  P w ->
  P (snd (sql_select_all now w)) /\ P (snd (sql_select_one r now w)).
Proof.
  intros Hw. unfold sql_select_all, sql_select_one, bind, relation.
  now destruct (students w).
Qed.

Lemma app_keeps (e : env) (req : request) (w : world) :
  P w -> P (snd (app e req w)).
Proof.
  intros Hw.
  assert (Hwrap : forall m : M response,
             P (snd (m w)) ->
             P (snd (bind m (fun r => ret (Answered r)) w))).
  { intros m Hm. unfold bind, ret.
    now destruct (m w) as [[r|err] w']. }
  destruct req as [| |r|b|r b|r]; unfold app.
  - exact Hw.
  - apply Hwrap, handler_keeps; auto.
    intros w0 H0. now apply (select_keeps "").
  - apply Hwrap, handler_keeps; auto.
    + intros w0 H0. now apply select_keeps.
    + now intros [|row rows] w0.
  - apply Hwrap. unfold post_students.
    destruct (negb (truthy (b_name b)) || negb (truthy (b_age b))
              || negb (truthy (b_rollnumber b))
              || negb (truthy (b_city b))); [exact Hw|].
    apply handler_keeps; auto.
    intros err w0. apply post_catch_world.
  - apply Hwrap, handler_keeps; auto.
    now intros [|row rows] w0.
  - apply Hwrap, handler_keeps; auto.
    now intros [|row rows] w0.
Qed.

Lemma serve_keeps (reqs : list (env * request)) (w : world) :
  P w -> P (snd (serve reqs w)).
Proof.
  revert w. induction reqs as [|[e req] reqs IH]; intros w Hw;
    [exact Hw|].
  simpl. unfold bind.
  pose proof (app_keeps e req Hw) as Happ.
  destruct (app e req w) as [[rep|err] w1]; simpl in *; [|exact Happ].
  specialize (IH w1 Happ).
  now destruct (serve reqs w1) as [[reps|err] w2].
Qed.

Lemma startServer_keeps (e1 e2 : env) (w : world) :
  P w -> P (snd (startServer e1 e2 w)).
Proof.
  intros Hw. unfold startServer, try_catch, bind.
  rewrite connectDB_run.
  destruct (env_fault e1); simpl.
  - unfold initTable.
    pose proof (@handler_keeps (list student) unit e2 sql_create_table
                  (fun _ => ret tt) (fun _ => ret tt) w) as Hinit.
    unfold bind in Hinit at 1.
    match type of Hinit with
    | _ -> _ -> _ -> _ -> P (snd ?run) =>
        assert (Hrun : P (snd run)) by (apply Hinit; auto)
    end.
    clear Hinit. unfold bind in *.
    match goal with
    | |- context [try_catch ?m ?h w] =>
        destruct (try_catch m h w) as [[u|err] w1]
    end; exact Hrun.
  - exact Hw.
  - destruct w as [t q l]. exact (P_pool (S l) Hw).
Qed.

End Invariant.

Lemma text_length_le (s : string) : (text_length s <= String.length s)%nat.
Proof.
  induction s as [|c s IH]; simpl; [lia|].
  destruct (continuation c); lia.
Qed.

Lemma take_drop_text_length (k : nat) (s : string) :
  (text_length (string_take k s) + text_length (string_drop k s))%nat
  = text_length s.
Proof.
  revert s. induction k as [|k IH]; intros [|c s]; simpl; try reflexivity.
  specialize (IH s). destruct (continuation c); lia.
Qed.

Lemma drop_length (k : nat) (s : string) :
  String.length (string_drop k s) = (String.length s - k)%nat.
Proof.
  revert s. induction k as [|k IH]; intros [|c s]; simpl; auto.
Qed.

Lemma all_spaces_text_length (s : string) :
  all_spaces s = true -> text_length s = String.length s.
Proof.
  induction s as [|c s IH]; simpl; [reflexivity|].
  intros H. apply andb_prop in H as [Hc Hs].
  apply Ascii.eqb_eq in Hc. subst c. simpl. now rewrite IH.
Qed.

Lemma varchar_fits (n : nat) (p : option string) (x : string) :
  on_param (varchar n) p = Returned (Some x) ->
  (text_length x <= n)%nat.
Proof.
  destruct p as [s|]; simpl; [|discriminate].
  unfold varchar. destruct (negb (text_ok s)); [discriminate|].
  destruct (text_length s <=? n)%nat eqn:Hlen.
  - intros [= <-]. now apply Nat.leb_le.
  - destruct (all_spaces _) eqn:Hsp; [|discriminate].
    intros [= <-]. apply Nat.leb_gt in Hlen.
    pose proof (take_drop_text_length
                  (String.length s - (text_length s - n)) s) as Hsum.
    rewrite (all_spaces_text_length _ Hsp), drop_length in Hsum.
    pose proof (text_length_le s). lia.
Qed.

Lemma int4in_fits (p : option string) (a : Z) :
  on_param int4in p = Returned (Some a) -> int4_min <= a <= int4_max.
Proof.
  destruct p as [s|]; simpl; [|discriminate].
  unfold int4in. destruct (NilZero.int_of_string s) as [d|]; [|discriminate].
  destruct ((int4_min <=? Z.of_int d) && (Z.of_int d <=? int4_max))
    eqn:Hr; [|discriminate].
  intros [= <-]. apply andb_prop in Hr as [H1 H2]. lia.
Qed.

Lemma consistent_create (now : Z) (w : world) :
  consistent w -> consistent (snd (sql_create_table now w)).
Proof.
  destruct w as [[tbl|] q l]; unfold sql_create_table, consistent; simpl;
    [auto|]. intros _. split; constructor.
Qed.

Lemma ids_distinct_keeps :
  (forall t q l l', ids_distinct (World t q l) ->
                    ids_distinct (World t q l')) /\
  (forall now w, ids_distinct w ->
                 ids_distinct (snd (sql_create_table now w))) /\
  (forall p1 p2 p3 p4 now w,
      ids_distinct w ->
      ids_distinct (snd (sql_insert p1 p2 p3 p4 now w))) /\
  (forall p1 p2 p3 r now w,
      ids_distinct w -> ids_distinct (snd (sql_update p1 p2 p3 r now w))) /\
  (forall r now w,
      ids_distinct w -> ids_distinct (snd (sql_delete r now w))).
Proof.
  repeat split.
  - auto.
  - intros now [[tbl|] q l]; unfold sql_create_table, ids_distinct; simpl;
      [auto|]. intros _. constructor.
  - intros p1 p2 p3 p4 now [[tbl|] q l] Hw;
      unfold sql_insert, bind, relation, lift, nextval, store, throw;
      simpl; [|exact Hw].
    destruct (on_param (varchar 100) p1) as [n|]; simpl; [|exact Hw].
    destruct (on_param int4in p2) as [a|]; simpl; [|exact Hw].
    destruct (on_param (varchar 50) p3) as [r|]; simpl; [|exact Hw].
    destruct (on_param (varchar 100) p4) as [c|]; simpl; [|exact Hw].
    destruct (q <? int4_max); simpl; [|exact Hw].
    destruct n as [n|]; simpl; [|exact Hw].
    destruct a as [a|]; simpl; [|exact Hw].
    destruct r as [r|]; simpl; [|exact Hw].
    destruct c as [c|]; simpl; [|exact Hw].
    destruct (existsb _ tbl) eqn:Hex; simpl; [exact Hw|].
    apply existsb_unique_index in Hex as [_ Hid].
    unfold ids_distinct in *; simpl in *.
    rewrite map_app; simpl. apply NoDup_app; auto.
    + repeat constructor. intros [].
    + intros i Hi [<-|[]].
      apply in_map_iff in Hi as (x & Hx & Hin).
      rewrite Forall_forall in Hid. now apply (Hid x Hin).
  - intros p1 p2 p3 r now [[tbl|] q l] Hw;
      unfold sql_update, bind, relation, lift, store; simpl; [|exact Hw].
    destruct (on_param (varchar 100) p1) as [n|]; simpl; [|exact Hw].
    destruct (on_param int4in p2) as [a|]; simpl; [|exact Hw].
    destruct (on_param (varchar 100) p3) as [c|]; simpl; [|exact Hw].
    unfold ids_distinct in *; simpl in *.
    rewrite map_map. erewrite map_ext; [exact Hw|].
    intros x; simpl. now destruct (has_rollnumber r x).
  - intros r now [[tbl|] q l] Hw;
      unfold sql_delete, bind, relation, store; simpl; [|exact Hw].
    unfold ids_distinct in *; simpl in *.
    induction tbl as [|x tbl IH]; simpl; [constructor|].
    inversion Hw as [|? ? Hx Hrest]; subst.
    destruct (negb (has_rollnumber r x)); simpl; [|now apply IH].
    constructor; [|now apply IH].
    intros Hin. apply Hx.
    apply in_map_iff in Hin as (y & Hy & Hin).
    apply filter_In in Hin as [Hin _].
    rewrite <- Hy. now apply in_map.
Qed.

Lemma rows_fit_columns_keeps :
  (forall t q l l', rows_fit_columns (World t q l) ->
                    rows_fit_columns (World t q l')) /\
  (forall now w, rows_fit_columns w ->
                 rows_fit_columns (snd (sql_create_table now w))) /\
  (forall p1 p2 p3 p4 now w,
      rows_fit_columns w ->
      rows_fit_columns (snd (sql_insert p1 p2 p3 p4 now w))) /\
  (forall p1 p2 p3 r now w,
      rows_fit_columns w ->
      rows_fit_columns (snd (sql_update p1 p2 p3 r now w))) /\
  (forall r now w,
      rows_fit_columns w -> rows_fit_columns (snd (sql_delete r now w))).
Proof.
  repeat split.
  - auto.
  - intros now [[tbl|] q l]; unfold sql_create_table, rows_fit_columns;
      simpl; [auto|]. intros _. constructor.
  - intros p1 p2 p3 p4 now [[tbl|] q l] Hw;
      unfold sql_insert, bind, relation, lift, nextval, store, throw;
      simpl; [|exact Hw].
    destruct (on_param (varchar 100) p1) as [n|] eqn:Hn; simpl;
      [|exact Hw].
    destruct (on_param int4in p2) as [a|] eqn:Ha; simpl; [|exact Hw].
    destruct (on_param (varchar 50) p3) as [r|] eqn:Hr; simpl;
      [|exact Hw].
    destruct (on_param (varchar 100) p4) as [c|] eqn:Hc; simpl;
      [|exact Hw].
    destruct (q <? int4_max); simpl; [|exact Hw].
    destruct n as [n|]; simpl; [|exact Hw].
    destruct a as [a|]; simpl; [|exact Hw].
    destruct r as [r|]; simpl; [|exact Hw].
    destruct c as [c|]; simpl; [|exact Hw].
    destruct (existsb _ tbl); simpl; [exact Hw|].
    unfold rows_fit_columns in *; simpl in *.
    apply Forall_app. split; [exact Hw|].
    constructor; [|constructor]. unfold fits_columns; simpl.
    split; [|split; [|split]].
    + eapply varchar_fits; exact Hn.
    + eapply int4in_fits; exact Ha.
    + eapply varchar_fits; exact Hr.
    + eapply varchar_fits; exact Hc.
  - intros p1 p2 p3 r now [[tbl|] q l] Hw;
      unfold sql_update, bind, relation, lift, store; simpl; [|exact Hw].
    destruct (on_param (varchar 100) p1) as [n|] eqn:Hn; simpl;
      [|exact Hw].
    destruct (on_param int4in p2) as [a|] eqn:Ha; simpl; [|exact Hw].
    destruct (on_param (varchar 100) p3) as [c|] eqn:Hc; simpl;
      [|exact Hw].
    unfold rows_fit_columns in *; simpl in *.
    apply Forall_map. eapply Forall_impl; [|exact Hw].
    intros x (Hxn & Hxa & Hxr & Hxc).
    destruct (has_rollnumber r x); [|now repeat split].
    unfold fits_columns; simpl. split; [|split; [|split]].
    + destruct n as [n|]; simpl;
        [eapply varchar_fits; exact Hn|exact Hxn].
    + destruct a as [a|]; simpl;
        [eapply int4in_fits; exact Ha|exact Hxa].
    + exact Hxr.
    + destruct c as [c|]; simpl;
        [eapply varchar_fits; exact Hc|exact Hxc].
  - intros r now [[tbl|] q l] Hw;
      unfold sql_delete, bind, relation, store; simpl; [|exact Hw].
    unfold rows_fit_columns in *; simpl in *.
    apply Forall_forall. intros x Hx.
    apply filter_In in Hx as [Hx _].
    rewrite Forall_forall in Hw. now apply Hw.
Qed.

(** X3.  Start the server and serve any sequence of requests, whatever
    fails on the way: if roll numbers were distinct, ids distinct and no
    id above the sequence before, they still are afterwards.  The empty
    database is such a start, so no run ever stores two students under
    one roll number or one id. *)
Theorem run_keeps_keys (e1 e2 : env) (reqs : list (env * request))
  (w : world) :
  consistent w ->
  ids_distinct w ->
  consistent (snd (serve reqs (snd (startServer e1 e2 w)))) /\
  ids_distinct (snd (serve reqs (snd (startServer e1 e2 w)))).
Proof.
  intros Hc Hi. split.
  - apply serve_keeps, startServer_keeps;
      auto using consistent_create, sql_insert_consistent,
        sql_update_consistent, sql_delete_consistent.
  - destruct ids_distinct_keeps as (H1 & H2 & H3 & H4 & H5).
    apply serve_keeps, startServer_keeps; auto.
Qed.

Lemma run_keeps_keys_witness :
  consistent
    (snd (serve [(online, PostStudents carol); (dropped, GetStudents);
                 (online, PostStudents carol)]
            (snd (startServer online online no_database)))) /\
  ids_distinct
    (snd (serve [(online, PostStudents carol); (dropped, GetStudents);
                 (online, PostStudents carol)]
            (snd (startServer online online no_database)))).
Proof.
  apply (@run_keeps_keys online online
           [(online, PostStudents carol); (dropped, GetStudents);
            (online, PostStudents carol)] no_database); exact I.
Defined.

(** X4.  Over the same runs, every stored row fits the columns of the
    table definition: name and city of at most 100 characters, roll
    number of at most 50, age a 32-bit integer. *)
Theorem run_rows_fit_columns (e1 e2 : env) (reqs : list (env * request))
  (w : world) :
  rows_fit_columns w ->
  rows_fit_columns (snd (serve reqs (snd (startServer e1 e2 w)))).
Proof.
  intros Hw. destruct rows_fit_columns_keeps as (H1 & H2 & H3 & H4 & H5).
  apply serve_keeps, startServer_keeps; auto.
Qed.

Lemma run_rows_fit_columns_witness :
  rows_fit_columns
    (snd (serve [(online, PostStudents carol);
                 (online, PutStudent "R3" carol)]
            (snd (startServer online online no_database)))).
Proof.
  apply (@run_rows_fit_columns online online
           [(online, PostStudents carol); (online, PutStudent "R3" carol)]
           no_database).
  exact I.
Defined.

Lemma serve_pool_run (reqs : list (env * request)) (w : world) :
  exists replies w',
    serve reqs w = (Returned replies, w') /\
    List.length replies = List.length reqs /\
    (leased w <= leased w' <= leased w + List.length reqs)%nat.
Proof.
  revert w. induction reqs as [|[e req] reqs IH]; intros w.
  - exists [], w. simpl. repeat split; lia.
  - destruct (app_leased e req w) as (rep & w1 & Happ & Hl & _).
    destruct (IH w1) as (reps & w2 & Hrun & Hlen & Hle).
    exists (rep :: reps), w2. simpl. unfold bind.
    rewrite Happ, Hrun. simpl. split; [reflexivity|].
    split; [now rewrite Hlen|]. lia.
Qed.

(** X5.  A run of [n] requests that has been answered to the end has
    sent [n] replies, and ends with at least as many connections checked
    out as it began with and at most [n] more. *)
Theorem serve_pool (reqs : list (env * request)) (w w' : world)
  (replies : list reply) :
  serve reqs w = (Returned replies, w') ->
  List.length replies = List.length reqs /\
  (leased w <= leased w' <= leased w + List.length reqs)%nat.
Proof.
  intros H.
  destruct (serve_pool_run reqs w) as (reps0 & w0 & Hrun & Hlen & Hle).
  rewrite Hrun in H. injection H as <- <-. auto.
Qed.

Lemma serve_pool_witness :
  List.length
    [Answered
       (Response 500
          (Envelope false (Some "Error fetching students") None None))]
  = List.length [(dropped, GetStudents)] /\
  (leased campus <= leased (checked_out campus)
   <= leased campus + List.length [(dropped, GetStudents)])%nat.
Proof.
  apply (@serve_pool [(dropped, GetStudents)] campus (checked_out campus)
           [Answered
              (Response 500
                 (Envelope false (Some "Error fetching students")
                    None None))]).
  reflexivity.
Defined.


(** ** Fetching one student *)

(** X6.  With the server reachable and the table in place, fetching a
    roll number that is well-formed text answers 200 with the row stored under it, or 404 when
    no row has it (the comparison is exact, byte for byte); either way
    the world is left as it was. *)
Theorem get_student_found_or_not (e : env) (r : string) (w : world)
  (tbl : list student) :
  text_ok r = true ->
  env_fault e = NoFault ->
  students w = Some tbl ->
  get_students_rollnumber e r w
  = (Returned
       match lookup r tbl with
       | Some s => Response 200 (Envelope true None (Some (Row s)) None)
       | None =>
           Response 404
             (Envelope false (Some "Student not found") None None)
       end,
     w).
Proof.
  intros Hok He Hw. destruct (lookup r tbl) as [s|] eqn:Hr.
  - now apply get_found_run with tbl.
  - now apply get_missing_run with tbl.
Qed.

Lemma get_student_found_or_not_witness :
  get_students_rollnumber online "r1" campus
  = (Returned
       match lookup "r1" [alice; bob] with
       | Some s => Response 200 (Envelope true None (Some (Row s)) None)
       | None =>
           Response 404
             (Envelope false (Some "Student not found") None None)
       end,
     campus)
  /\ lookup "r1" [alice; bob] = None.
Proof.
  split; [|reflexivity].
  apply (@get_student_found_or_not online "r1" campus [alice; bob]);
    reflexivity.
Defined.

(** X7.  The two reading routes never write: on every path, failures
    included, the table and the sequence are what they were. *)
Theorem reads_do_not_write (e : env) (r : string) (w : world) :
  students (snd (get_students e w)) = students w /\
  students_id_seq (snd (get_students e w)) = students_id_seq w /\
  students (snd (get_students_rollnumber e r w)) = students w /\
  students_id_seq (snd (get_students_rollnumber e r w))
  = students_id_seq w.
Proof.
  pose (P := fun w' : world =>
               students w' = students w /\
               students_id_seq w' = students_id_seq w).
  assert (Hpool : forall t q l l',
             P (World t q l) -> P (World t q l')) by (intros; assumption).
  assert (Hsel : forall now w0,
             P w0 ->
             P (snd (sql_select_all now w0)) /\
             P (snd (sql_select_one r now w0))).
  { intros now w0 H0. unfold sql_select_all, sql_select_one, bind, relation.
    now destruct (students w0). }
  assert (H1 : P (snd (get_students e w))).
  { unfold get_students. apply (@handler_keeps P Hpool); auto;
      [|now split].
    intros w0 H0. now apply Hsel. }
  assert (H2 : P (snd (get_students_rollnumber e r w))).
  { unfold get_students_rollnumber.
    apply (@handler_keeps P Hpool); auto; [| |now split].
    - intros w0 H0. now apply Hsel.
    - now intros [|row rows] w0. }
  destruct H1, H2. auto.
Qed.

(** ** Create, and what follows a create *)

Lemma lookup_app_old (r : string) (tbl more : list student) (s : student) :
  lookup r tbl = Some s -> lookup r (tbl ++ more) = Some s.
Proof.
  unfold lookup. induction tbl as [|x tbl IH]; simpl; [discriminate|].
  destruct (has_rollnumber r x); auto.
Qed.

Lemma lookup_app_new (r : string) (tbl : list student) (row : student) :
  lookup r tbl = None ->
  s_rollnumber row = r ->
  lookup r (tbl ++ [row]) = Some row.
Proof.
  unfold lookup. intros Hr Hrow.
  induction tbl as [|x tbl IH]; simpl in *.
  - unfold has_rollnumber. now rewrite Hrow, String.eqb_refl.
  - destruct (has_rollnumber r x); [discriminate|auto].
Qed.

Lemma filter_out_absent (r : string) (tbl : list student) :
  lookup r tbl = None ->
  filter (fun x => negb (has_rollnumber r x)) tbl = tbl.
Proof.
  unfold lookup. induction tbl as [|x tbl IH]; simpl; [reflexivity|].
  destruct (has_rollnumber r x); [discriminate|].
  intros H. simpl. now rewrite IH.
Qed.

Lemma consistent_ids_below (w : world) (tbl : list student) :
  consistent w ->
  students w = Some tbl ->
  Forall (fun x => s_id x < students_id_seq w + 1) tbl.
Proof.
  unfold consistent. intros Hc Hw. rewrite Hw in Hc.
  destruct Hc as [_ Hid].
  eapply Forall_impl; [|exact Hid]. simpl. intros x Hx. lia.
Qed.

Lemma post_fresh_run (e : env) (b : body) (w : world)
  (tbl : list student) (n : string) (a : Z) (r c : string) :
  students_id_seq w < int4_max ->
  env_fault e = NoFault ->
  students w = Some tbl ->
  consistent w ->
  all_fields_present b = true ->
  insert_accepts b n a r c ->
  lookup r tbl = None ->
  post_students e b w
  = (Returned
       (Response 201
          (Envelope true (Some "Student created successfully")
             (Some (Row (Student (students_id_seq w + 1) n a r c
                           (env_now e))))
             None)),
     World
       (Some (tbl ++ [Student (students_id_seq w + 1) n a r c (env_now e)])
               %list)
       (students_id_seq w + 1) (leased w)).
Proof.
  intros Hq He Hw Hc Hb Hacc Hr.
  apply post_created_run; auto.
  now apply consistent_ids_below.
Qed.

(** X8.  A create request that passes the presence check, with values
    that the columns accept (numbers being safe integers) and a roll
    number that is not in use, made while the sequence of ids is not
    exhausted, is
    answered with 201 and the new record: the accepted values, the next
    value of the sequence as [id] and the current time as [created_at].
    The record is added at the end of the table, the rows that were
    there stay, and the connection is back in the pool. *)
Theorem post_creates_row (e : env) (b : body) (w : world)
  (tbl : list student) (n : string) (a : Z) (r c : string) :
  students_id_seq w < int4_max ->
  exact_numbers b = true ->
  env_fault e = NoFault ->
  students w = Some tbl ->
  consistent w ->
  all_fields_present b = true ->
  insert_accepts b n a r c ->
  lookup r tbl = None ->
  post_students e b w
  = (Returned
       (Response 201
          (Envelope true (Some "Student created successfully")
             (Some (Row (Student (students_id_seq w + 1) n a r c
                           (env_now e))))
             None)),
     World
       (Some (tbl ++ [Student (students_id_seq w + 1) n a r c (env_now e)])
               %list)
       (students_id_seq w + 1) (leased w)).
Proof.
  intros Hq Hex He Hw Hc Hb Hacc Hr.
  now apply post_fresh_run.
Qed.


Lemma post_creates_row_witness :
  post_students online carol campus
  = (Returned
       (Response 201
          (Envelope true (Some "Student created successfully")
             (Some (Row carol_row)) None)),
     World (Some [alice; bob; carol_row]) 3 0).
Proof.
  apply (@post_creates_row online carol campus [alice; bob]
           "Carol" 22 "R3" "Oslo").
  - reflexivity.
  - reflexivity.
  - reflexivity.
  - reflexivity.
  - split; [repeat constructor; simpl; intuition discriminate|].
    repeat constructor; simpl; lia.
  - reflexivity.
  - repeat split; reflexivity.
  - reflexivity.
Defined.

(** X9.  After such a create, fetching the roll number answers 200 with
    the very record that the create returned, and the list route
    returns one row more, the new record among them. *)
Theorem post_then_read (e e1 e2 : env) (b : body) (w : world)
  (tbl : list student) (n : string) (a : Z) (r c : string) :
  students_id_seq w < int4_max ->
  exact_numbers b = true ->
  env_fault e = NoFault ->
  env_fault e1 = NoFault ->
  env_fault e2 = NoFault ->
  students w = Some tbl ->
  consistent w ->
  all_fields_present b = true ->
  insert_accepts b n a r c ->
  lookup r tbl = None ->
  exists row w1 rows,
    post_students e b w
    = (Returned
         (Response 201
            (Envelope true (Some "Student created successfully")
               (Some (Row row)) None)),
       w1) /\
    get_students_rollnumber e1 r w1
    = (Returned (Response 200 (Envelope true None (Some (Row row)) None)),
       w1) /\
    get_students e2 w1
    = (Returned
         (Response 200
            (Envelope true None (Some (Rows rows))
               (Some (S (List.length tbl))))),
       w1) /\
    In row rows.
Proof.
  intros Hq Hex He He1 He2 Hw Hc Hb Hacc Hr.
  eexists _, _, _.
  split; [apply (@post_fresh_run e b w tbl n a r c); assumption|].
  split; [|split].
  - eapply get_found_run; [exact He1|reflexivity|].
    now apply lookup_app_new.
  - erewrite get_students_run; [|exact He2|reflexivity].
    repeat f_equal.
    rewrite <- (Permutation_length (order_by_rollnumber_perm _)).
    rewrite length_app. simpl. lia.
  - eapply Permutation_in; [apply order_by_rollnumber_perm|].
    apply in_or_app. right. now left.
Qed.

Lemma post_then_read_witness :
  exists row w1 rows,
    post_students online carol campus
    = (Returned
         (Response 201
            (Envelope true (Some "Student created successfully")
               (Some (Row row)) None)),
       w1) /\
    get_students_rollnumber online "R3" w1
    = (Returned (Response 200 (Envelope true None (Some (Row row)) None)),
       w1) /\
    get_students online w1
    = (Returned
         (Response 200
            (Envelope true None (Some (Rows rows))
               (Some (S (List.length [alice; bob]))))),
       w1) /\
    In row rows.
Proof.
  apply (@post_then_read online online online carol campus [alice; bob]
           "Carol" 22 "R3" "Oslo").
  - reflexivity.
  - reflexivity.
  - reflexivity.
  - reflexivity.
  - reflexivity.
  - reflexivity.
  - split; [repeat constructor; simpl; intuition discriminate|].
    repeat constructor; simpl; lia.
  - reflexivity.
  - repeat split; reflexivity.
  - reflexivity.
Defined.

(** X10.  A second create for the roll number just created, by a
    request that also passes the presence check and whose values the
    columns accept, is answered with 409 and adds nothing: the table
    after it is the table after the first create. *)
Theorem post_twice_conflicts (e e' : env) (b b' : body) (w : world)
  (tbl : list student) (n n' : string) (a a' : Z) (r c c' : string) :
  students_id_seq w + 1 < int4_max ->
  exact_numbers b = true ->
  exact_numbers b' = true ->
  env_fault e = NoFault ->
  env_fault e' = NoFault ->
  students w = Some tbl ->
  consistent w ->
  all_fields_present b = true ->
  insert_accepts b n a r c ->
  all_fields_present b' = true ->
  insert_accepts b' n' a' r c' ->
  lookup r tbl = None ->
  exists resp1 w1 w2,
    post_students e b w = (Returned resp1, w1) /\
    status resp1 = 201 /\
    post_students e' b' w1
    = (Returned
         (Response 409
            (Envelope false (Some "Roll number already exists") None None)),
       w2) /\
    students w2 = students w1.
Proof.
  intros Hq Hex Hex' He He' Hw Hc Hb Hacc Hb' Hacc' Hr.
  eexists _, _, _.
  split; [apply (@post_fresh_run e b w tbl n a r c); auto; lia|].
  split; [reflexivity|].
  split.
  - eapply (@post_duplicate_run e' b' _ _ n' a' r c');
      [exact He'|reflexivity|exact Hb'|exact Hacc'
      |now apply lookup_app_new|exact Hq].
  - reflexivity.
Qed.

Lemma post_twice_conflicts_witness :
  exists resp1 w1 w2,
    post_students online carol campus = (Returned resp1, w1) /\
    status resp1 = 201 /\
    post_students online
      (Body (JStr "Dave") (JNum 30) (JStr "R3") (JStr "Bern")) w1
    = (Returned
         (Response 409
            (Envelope false (Some "Roll number already exists") None None)),
       w2) /\
    students w2 = students w1.
Proof.
  apply (@post_twice_conflicts online online carol
           (Body (JStr "Dave") (JNum 30) (JStr "R3") (JStr "Bern"))
           campus [alice; bob] "Carol" "Dave" 22 30 "R3" "Oslo" "Bern").
  - reflexivity.
  - reflexivity.
  - reflexivity.
  - reflexivity.
  - reflexivity.
  - reflexivity.
  - split; [repeat constructor; simpl; intuition discriminate|].
    repeat constructor; simpl; lia.
  - reflexivity.
  - repeat split; reflexivity.
  - reflexivity.
  - repeat split; reflexivity.
  - reflexivity.
Defined.

(** X11.  Deleting the roll number just created returns the created
    record and gives back the table as it was before the create, row
    for row; only the sequence has moved on. *)
Theorem post_then_delete_restores (e e' : env) (b : body) (w : world)
  (tbl : list student) (n : string) (a : Z) (r c : string) :
  students_id_seq w < int4_max ->
  exact_numbers b = true ->
  env_fault e = NoFault ->
  env_fault e' = NoFault ->
  students w = Some tbl ->
  consistent w ->
  all_fields_present b = true ->
  insert_accepts b n a r c ->
  lookup r tbl = None ->
  exists row w1,
    post_students e b w
    = (Returned
         (Response 201
            (Envelope true (Some "Student created successfully")
               (Some (Row row)) None)),
       w1) /\
    delete_students_rollnumber e' r w1
    = (Returned
         (Response 200
            (Envelope true (Some "Student deleted successfully")
               (Some (Row row)) None)),
       World (Some tbl) (students_id_seq w + 1) (leased w)).
Proof.
  intros Hq Hex He He' Hw Hc Hb Hacc Hr.
  eexists _, _.
  split; [apply (@post_fresh_run e b w tbl n a r c); assumption|].
  erewrite delete_found_run;
    [|exact He'|reflexivity|now apply lookup_app_new].
  simpl. rewrite filter_app, (filter_out_absent r tbl Hr). simpl.
  unfold has_rollnumber at 1. simpl. rewrite String.eqb_refl. simpl.
  now rewrite app_nil_r.
Qed.

Lemma post_then_delete_restores_witness :
  exists row w1,
    post_students online carol campus
    = (Returned
         (Response 201
            (Envelope true (Some "Student created successfully")
               (Some (Row row)) None)),
       w1) /\
    delete_students_rollnumber online "R3" w1
    = (Returned
         (Response 200
            (Envelope true (Some "Student deleted successfully")
               (Some (Row row)) None)),
       World (Some [alice; bob]) (students_id_seq campus + 1)
             (leased campus)).
Proof.
  apply (@post_then_delete_restores online online carol campus
           [alice; bob] "Carol" 22 "R3" "Oslo").
  - reflexivity.
  - reflexivity.
  - reflexivity.
  - reflexivity.
  - reflexivity.
  - split; [repeat constructor; simpl; intuition discriminate|].
    repeat constructor; simpl; lia.
  - reflexivity.
  - repeat split; reflexivity.
  - reflexivity.
Defined.

(** X12.  A roll number freed by a delete can be created again, and the
    new record gets an id that the deleted record never had: the
    sequence does not go back. *)
Theorem delete_then_post_fresh_id (e e' : env) (b : body) (w : world)
  (tbl : list student) (s : student) (n : string) (a : Z) (r c : string) :
  students_id_seq w < int4_max ->
  exact_numbers b = true ->
  env_fault e = NoFault ->
  env_fault e' = NoFault ->
  students w = Some tbl ->
  consistent w ->
  lookup r tbl = Some s ->
  all_fields_present b = true ->
  insert_accepts b n a r c ->
  exists w1 w2,
    delete_students_rollnumber e r w
    = (Returned
         (Response 200
            (Envelope true (Some "Student deleted successfully")
               (Some (Row s)) None)),
       w1) /\
    post_students e' b w1
    = (Returned
         (Response 201
            (Envelope true (Some "Student created successfully")
               (Some (Row (Student (students_id_seq w + 1) n a r c
                             (env_now e'))))
               None)),
       w2) /\
    s_id s < students_id_seq w + 1.
Proof.
  intros Hq Hex He He' Hw Hc Hr Hb Hacc.
  pose proof (@consistent_ids_below w tbl Hc Hw) as Hid.
  eexists _, _.
  split; [now apply delete_found_run with (tbl := tbl)|].
  rewrite Forall_forall in Hid.
  split.
  - pose proof (@post_created_run e' b
                  (World
                     (Some (filter (fun x => negb (has_rollnumber r x)) tbl))
                     (students_id_seq w) (leased w))
                  (filter (fun x => negb (has_rollnumber r x)) tbl)
                  n a r c He' eq_refl Hb Hacc
                  (lookup_after_delete r tbl)) as Hrun.
    simpl in Hrun. apply Hrun; [|exact Hq].
    apply Forall_forall. intros x Hx.
    apply filter_In in Hx as [Hx _]. now apply Hid.
  - apply find_some in Hr as [Hin _]. now apply Hid.
Qed.

Lemma delete_then_post_fresh_id_witness :
  exists w1 w2,
    delete_students_rollnumber online "R1" campus
    = (Returned
         (Response 200
            (Envelope true (Some "Student deleted successfully")
               (Some (Row bob)) None)),
       w1) /\
    post_students online
      (Body (JStr "Dave") (JNum 30) (JStr "R1") (JStr "Bern")) w1
    = (Returned
         (Response 201
            (Envelope true (Some "Student created successfully")
               (Some (Row (Student (students_id_seq campus + 1) "Dave" 30
                             "R1" "Bern" (env_now online))))
               None)),
       w2) /\
    s_id bob < students_id_seq campus + 1.
Proof.
  apply (@delete_then_post_fresh_id online online
           (Body (JStr "Dave") (JNum 30) (JStr "R1") (JStr "Bern"))
           campus [alice; bob] bob "Dave" 30 "R1" "Bern").
  - reflexivity.
  - reflexivity.
  - reflexivity.
  - reflexivity.
  - reflexivity.
  - split; [repeat constructor; simpl; intuition discriminate|].
    repeat constructor; simpl; lia.
  - reflexivity.
  - reflexivity.
  - repeat split; reflexivity.
Defined.

(** ** Update and delete: the rows they touch *)

Lemma update_no_hit (r : string) (f : student -> student)
  (tbl : list student) :
  lookup r tbl = None ->
  map (fun x => if has_rollnumber r x then f x else x) tbl = tbl.
Proof.
  unfold lookup. induction tbl as [|x tbl IH]; simpl; [reflexivity|].
  destruct (has_rollnumber r x); [discriminate|].
  intros H. now rewrite IH.
Qed.

Lemma has_other_rollnumber (r r' : string) (x : student) :
  r' <> r -> has_rollnumber r x = true -> has_rollnumber r' x = false.
Proof.
  unfold has_rollnumber. intros Hne Hx.
  apply String.eqb_eq in Hx. apply String.eqb_neq. congruence.
Qed.

Lemma lookup_other_after_update (r r' : string) (f : student -> student)
  (tbl : list student) :
  r' <> r ->
  (forall x, s_rollnumber (f x) = s_rollnumber x) ->
  lookup r' (map (fun x => if has_rollnumber r x then f x else x) tbl)
  = lookup r' tbl.
Proof.
  intros Hne Hf. unfold lookup.
  induction tbl as [|x tbl IH]; simpl; [reflexivity|].
  destruct (has_rollnumber r x) eqn:Hx.
  - unfold has_rollnumber at 1. rewrite Hf.
    fold (has_rollnumber r' x).
    now rewrite (@has_other_rollnumber r r' x Hne Hx).
  - now rewrite IH.
Qed.

Lemma lookup_other_after_delete (r r' : string) (tbl : list student) :
  r' <> r ->
  lookup r' (filter (fun x => negb (has_rollnumber r x)) tbl)
  = lookup r' tbl.
Proof.
  intros Hne. unfold lookup.
  induction tbl as [|x tbl IH]; simpl; [reflexivity|].
  destruct (has_rollnumber r x) eqn:Hx; simpl.
  - now rewrite (@has_other_rollnumber r r' x Hne Hx).
  - now rewrite IH.
Qed.

(** X13.  With the server reachable, an update request for a roll
    number (well-formed text) that no row has, with values that the
    columns accept, is
    answered with 404 and changes nothing. *)
Theorem put_missing_404 (e : env) (r : string) (b : body) (w : world)
  (tbl : list student) (n : option string) (a : option Z)
  (c : option string) :
  text_ok r = true ->
  exact_numbers b = true ->
  env_fault e = NoFault ->
  students w = Some tbl ->
  lookup r tbl = None ->
  update_accepts b n a c ->
  put_students_rollnumber e r b w
  = (Returned
       (Response 404 (Envelope false (Some "Student not found") None None)),
     w).
Proof.
  intros Hok Hex He Hw Hr (Hn & Ha & Hc).
  destruct w as [t q l]; simpl in Hw; subst t.
  unfold put_students_rollnumber, try_catch, bind, pool_connect,
    client_query, sql_update, bind, relation, lift, store.
  rewrite He; simpl. rewrite Hn, Ha, Hc; simpl.
  now rewrite (lookup_none_filter r tbl Hr), (update_no_hit r _ tbl Hr).
Qed.

Lemma put_missing_404_witness :
  put_students_rollnumber online "R9"
    (Body (JStr "Zed") JUndefined JUndefined JUndefined) campus
  = (Returned
       (Response 404 (Envelope false (Some "Student not found") None None)),
     campus).
Proof.
  apply (@put_missing_404 online "R9"
           (Body (JStr "Zed") JUndefined JUndefined JUndefined)
           campus [alice; bob] (Some "Zed") None None).
  - reflexivity.
  - reflexivity.
  - reflexivity.
  - reflexivity.
  - reflexivity.
  - repeat split; reflexivity.
Defined.

Lemma sql_update_other_rows (p1 p2 p3 : option string) (r r' : string)
  (now : Z) (tbl : list student) (w : world) :
  r' <> r ->
  (exists tbl', students w = Some tbl' /\
                lookup r' tbl' = lookup r' tbl /\
                List.length tbl' = List.length tbl) ->
  exists tbl', students (snd (sql_update p1 p2 p3 r now w)) = Some tbl' /\
               lookup r' tbl' = lookup r' tbl /\
               List.length tbl' = List.length tbl.
Proof.
  intros Hne (tbl0 & Hw & Hl & Hlen).
  destruct w as [t q l]; simpl in Hw; subst t.
  unfold sql_update, bind, relation, lift, store; simpl.
  destruct (on_param (varchar 100) p1) as [n|]; simpl; [|now exists tbl0].
  destruct (on_param int4in p2) as [a|]; simpl; [|now exists tbl0].
  destruct (on_param (varchar 100) p3) as [c|]; simpl; [|now exists tbl0].
  eexists. split; [reflexivity|]. split.
  - rewrite lookup_other_after_update; auto.
  - now rewrite length_map.
Qed.

(** X14.  An update request touches no other student: on every path of
    the handler, failures included, what is stored under any other roll
    number is what was stored before, and the table has as many rows as
    before. *)
Theorem put_touches_one_row (e : env) (r r' : string) (b : body)
  (w : world) (tbl : list student) :
  students w = Some tbl ->
  r' <> r ->
  exists tbl',
    students (snd (put_students_rollnumber e r b w)) = Some tbl' /\
    lookup r' tbl' = lookup r' tbl /\
    List.length tbl' = List.length tbl.
Proof.
  intros Hw Hne.
  pose (P := fun w' : world =>
               exists tbl', students w' = Some tbl' /\
                            lookup r' tbl' = lookup r' tbl /\
                            List.length tbl' = List.length tbl).
  assert (Hpool : forall t q l l',
             P (World t q l) -> P (World t q l')) by (intros; assumption).
  unfold put_students_rollnumber.
  apply (@handler_keeps P Hpool).
  - intros w0 H0. now apply sql_update_other_rows.
  - now intros [|row rows] w0.
  - reflexivity.
  - now exists tbl.
Qed.

Lemma put_touches_one_row_witness :
  exists tbl',
    students (snd (put_students_rollnumber online "R1"
                     (Body (JStr "Robert") JUndefined JUndefined JUndefined)
                     campus)) = Some tbl' /\
    lookup "R2" tbl' = lookup "R2" [alice; bob] /\
    List.length tbl' = List.length [alice; bob].
Proof.
  apply (@put_touches_one_row online "R1" "R2"
           (Body (JStr "Robert") JUndefined JUndefined JUndefined)
           campus [alice; bob]); [reflexivity|discriminate].
Defined.

(** X15.  No update request can change the [id], the roll number or the
    creation time of a student: on every path of the handler the row
    stored under the roll number keeps all three. *)
Theorem put_keeps_identity (e : env) (r : string) (b : body) (w : world)
  (tbl : list student) (s : student) :
  students w = Some tbl ->
  lookup r tbl = Some s ->
  exists tbl' s',
    students (snd (put_students_rollnumber e r b w)) = Some tbl' /\
    lookup r tbl' = Some s' /\
    s_id s' = s_id s /\
    s_rollnumber s' = s_rollnumber s /\
    s_created_at s' = s_created_at s.
Proof.
  intros Hw Hr.
  destruct (put_keeps_unsupplied e r b w Hw Hr)
    as (tbl' & s' & Ht & Hl & Hi & Hn & Hc & _).
  exists tbl', s'. auto.
Qed.

Lemma put_keeps_identity_witness :
  exists tbl' s',
    students (snd (put_students_rollnumber online "R1"
                     (Body (JStr "Robert") (JNum 40) (JStr "R7")
                           (JStr "Nice")) campus)) = Some tbl' /\
    lookup "R1" tbl' = Some s' /\
    s_id s' = s_id bob /\
    s_rollnumber s' = s_rollnumber bob /\
    s_created_at s' = s_created_at bob.
Proof.
  apply (@put_keeps_identity online "R1"
           (Body (JStr "Robert") (JNum 40) (JStr "R7") (JStr "Nice"))
           campus [alice; bob] bob); reflexivity.
Defined.

Lemma set_row_twice (n : option string) (a : option Z) (c : option string)
  (s : student) :
  set_row n a c (set_row n a c s) = set_row n a c s.
Proof. now destruct n, a, c. Qed.

Lemma update_twice (r : string) (n : option string) (a : option Z)
  (c : option string) (tbl : list student) :
  map (fun x => if has_rollnumber r x then set_row n a c x else x)
      (map (fun x => if has_rollnumber r x then set_row n a c x else x) tbl)
  = map (fun x => if has_rollnumber r x then set_row n a c x else x) tbl.
Proof.
  rewrite map_map. apply map_ext. intros x.
  destruct (has_rollnumber r x) eqn:Hx; [|now rewrite Hx].
  unfold has_rollnumber in *. rewrite set_row_rollnumber, Hx.
  apply set_row_twice.
Qed.

(** X16.  After an update that succeeded, fetching the roll number
    answers 200 with the record that the update returned, and sending
    the same update again gives the same response and changes nothing
    more. *)
Theorem put_then_read_or_repeat (e e1 e2 : env) (r : string) (b : body)
  (w : world) (tbl : list student) (s : student) (n : option string)
  (a : option Z) (c : option string) :
  text_ok r = true ->
  exact_numbers b = true ->
  env_fault e = NoFault ->
  env_fault e1 = NoFault ->
  env_fault e2 = NoFault ->
  students w = Some tbl ->
  lookup r tbl = Some s ->
  update_accepts b n a c ->
  exists row w1,
    put_students_rollnumber e r b w
    = (Returned
         (Response 200
            (Envelope true (Some "Student updated successfully")
               (Some (Row row)) None)),
       w1) /\
    get_students_rollnumber e1 r w1
    = (Returned (Response 200 (Envelope true None (Some (Row row)) None)),
       w1) /\
    put_students_rollnumber e2 r b w1
    = (Returned
         (Response 200
            (Envelope true (Some "Student updated successfully")
               (Some (Row row)) None)),
       w1).
Proof.
  intros Hok Hex He He1 He2 Hw Hr Hacc.
  assert (Hr1 : lookup r
                  (map (fun x => if has_rollnumber r x then set_row n a c x
                                 else x) tbl)
                = Some (set_row n a c s)).
  { rewrite lookup_after_update by apply set_row_rollnumber.
    now rewrite Hr. }
  eexists _, _.
  split; [apply (@put_found_run e r b w tbl s n a c); assumption|].
  split.
  - eapply get_found_run; [exact He1|reflexivity|exact Hr1].
  - erewrite put_found_run; [|exact He2|reflexivity|exact Hr1|exact Hacc].
    simpl. now rewrite set_row_twice, update_twice.
Qed.

Lemma put_then_read_or_repeat_witness :
  exists row w1,
    put_students_rollnumber online "R1"
      (Body JUndefined (JStr "40") JUndefined JUndefined) campus
    = (Returned
         (Response 200
            (Envelope true (Some "Student updated successfully")
               (Some (Row row)) None)),
       w1) /\
    get_students_rollnumber online "R1" w1
    = (Returned (Response 200 (Envelope true None (Some (Row row)) None)),
       w1) /\
    put_students_rollnumber online "R1"
      (Body JUndefined (JStr "40") JUndefined JUndefined) w1
    = (Returned
         (Response 200
            (Envelope true (Some "Student updated successfully")
               (Some (Row row)) None)),
       w1).
Proof.
  apply (@put_then_read_or_repeat online online online "R1"
           (Body JUndefined (JStr "40") JUndefined JUndefined)
           campus [alice; bob] bob None (Some 40) None).
  - reflexivity.
  - reflexivity.
  - reflexivity.
  - reflexivity.
  - reflexivity.
  - reflexivity.
  - reflexivity.
  - repeat split; reflexivity.
Defined.

(** X17.  With the server reachable, deleting a roll number (well-formed
    text) that no row has is answered with 404 and leaves the world as it was. *)
Theorem delete_missing_404 (e : env) (r : string) (w : world)
  (tbl : list student) :
  text_ok r = true ->
  env_fault e = NoFault ->
  students w = Some tbl ->
  lookup r tbl = None ->
  delete_students_rollnumber e r w
  = (Returned
       (Response 404 (Envelope false (Some "Student not found") None None)),
     w).
Proof.
  intros Hok He Hw Hr.
  rewrite (delete_missing_run e r w He Hw Hr).
  rewrite (filter_out_absent r tbl Hr).
  destruct w as [t q l]; simpl in *. now subst t.
Qed.

Lemma delete_missing_404_witness :
  delete_students_rollnumber online "R9" campus
  = (Returned
       (Response 404 (Envelope false (Some "Student not found") None None)),
     campus).
Proof.
  apply (@delete_missing_404 online "R9" campus [alice; bob]);
    reflexivity.
Defined.

Lemma sql_delete_other_rows (r r' : string) (now : Z)
  (tbl : list student) (w : world) :
  r' <> r ->
  (exists tbl', students w = Some tbl' /\ lookup r' tbl' = lookup r' tbl) ->
  exists tbl', students (snd (sql_delete r now w)) = Some tbl' /\
               lookup r' tbl' = lookup r' tbl.
Proof.
  intros Hne (tbl0 & Hw & Hl).
  destruct w as [t q l]; simpl in Hw; subst t.
  unfold sql_delete, bind, relation, store; simpl.
  eexists. split; [reflexivity|].
  now rewrite lookup_other_after_delete.
Qed.

(** X18.  A delete request touches no other student: on every path of
    the handler what is stored under any other roll number is what was
    stored before.  When it succeeds on a table with distinct roll
    numbers, exactly one row is gone. *)
Theorem delete_touches_one_row (e : env) (r r' : string) (w : world)
  (tbl : list student) :
  students w = Some tbl ->
  r' <> r ->
  (exists tbl',
      students (snd (delete_students_rollnumber e r w)) = Some tbl' /\
      lookup r' tbl' = lookup r' tbl) /\
  (env_fault e = NoFault ->
   NoDup (map s_rollnumber tbl) ->
   lookup r tbl <> None ->
   exists tbl',
     students (snd (delete_students_rollnumber e r w)) = Some tbl' /\
     S (List.length tbl') = List.length tbl).
Proof.
  intros Hw Hne. split.
  - pose (P := fun w' : world =>
                 exists tbl', students w' = Some tbl' /\
                              lookup r' tbl' = lookup r' tbl).
    assert (Hpool : forall t q l l',
               P (World t q l) -> P (World t q l'))
      by (intros; assumption).
    unfold delete_students_rollnumber.
    apply (@handler_keeps P Hpool).
    + intros w0 H0. now apply sql_delete_other_rows.
    + now intros [|row rows] w0.
    + reflexivity.
    + now exists tbl.
  - intros He Hnd Hr.
    destruct (lookup r tbl) as [s|] eqn:Hs; [|congruence].
    rewrite (delete_found_run e r w He Hw Hs). simpl.
    eexists. split; [reflexivity|].
    clear Hw Hr. unfold lookup in Hs.
    induction tbl as [|x tbl IH]; simpl in *; [discriminate|].
    inversion Hnd as [|? ? Hx Hnd']; subst.
    destruct (has_rollnumber r x) eqn:Hrx; simpl.
    + f_equal. rewrite filter_out_absent; [reflexivity|].
      unfold lookup.
      destruct (find (has_rollnumber r) tbl) as [y|] eqn:Hy;
        [|reflexivity].
      exfalso. apply Hx. apply find_some in Hy as [Hin Hry].
      apply String.eqb_eq in Hrx, Hry. rewrite Hrx, <- Hry.
      now apply in_map.
    + f_equal. now apply IH.
Qed.

Lemma delete_touches_one_row_witness :
  (exists tbl',
      students (snd (delete_students_rollnumber online "R1" campus))
      = Some tbl' /\
      lookup "R2" tbl' = lookup "R2" [alice; bob]) /\
  exists tbl',
    students (snd (delete_students_rollnumber online "R1" campus))
    = Some tbl' /\
    S (List.length tbl') = List.length [alice; bob].
Proof.
  destruct (@delete_touches_one_row online "R1" "R2" campus [alice; bob]
              eq_refl) as [H1 H2]; [discriminate|].
  split; [exact H1|]. apply H2.
  - reflexivity.
  - repeat constructor; simpl; intuition discriminate.
  - discriminate.
Defined.

(** ** Failures of the store *)

(** X19.  When the server cannot be reached, or drops the query, every
    student route answers 500 with [success: false] (a create request
    must first pass the presence check).  The table is not touched; in
    the first case the world is exactly as before, in the second the
    connection that was taken is still checked out. *)
Theorem app_store_failure (e : env) (req : request) (w : world) :
  env_fault e <> NoFault ->
  req <> GetRoot ->
  (forall b, req = PostStudents b -> all_fields_present b = true) ->
  exists msg,
    app e req w
    = (Returned (Answered (Response 500 (Envelope false (Some msg) None None))),
       match env_fault e with
       | QueryFails => checked_out w
       | _ => w
       end).
Proof.
  intros He Hreq Hpost.
  destruct req as [| |r|b|r b|r]; [contradiction| | | | |];
    unfold app, bind, get_students, get_students_rollnumber, post_students,
      put_students_rollnumber, delete_students_rollnumber;
    try rewrite (present_guard b (Hpost b eq_refl));
    rewrite handler_run;
    destruct (env_fault e); try contradiction;
    now eexists.
Qed.

Lemma app_store_failure_witness :
  exists msg,
    app dropped (PostStudents carol) campus
    = (Returned (Answered (Response 500 (Envelope false (Some msg) None None))),
       match env_fault dropped with
       | QueryFails => checked_out campus
       | _ => campus
       end).
Proof.
  apply (@app_store_failure dropped (PostStudents carol) campus).
  - discriminate.
  - discriminate.
  - intros b [= <-]. reflexivity.
Defined.



(** ** Create: what each status means *)

Lemma post_missing_field_run (e : env) (b : body) (w : world) :
  truthy (b_name b) = false \/ truthy (b_age b) = false \/
  truthy (b_rollnumber b) = false \/ truthy (b_city b) = false ->
  post_students e b w
  = (Returned
       (Response 400
          (Envelope false
             (Some "All fields required: name, age, rollnumber, city")
             None None)),
     w).
Proof.
  intros H. unfold post_students, try_catch.
  destruct H as [H|[H|[H|H]]]; rewrite H; simpl;
    rewrite ?orb_true_r; reflexivity.
Qed.

Lemma varchar_thrown (n : nat) (p : option string) (err : error) :
  on_param (varchar n) p = Thrown err ->
  err = DbError "22021" \/ err = DbError "22001".
Proof.
  destruct p as [s|]; simpl; [|discriminate].
  unfold varchar. destruct (negb (text_ok s)).
  - intros [= <-]. now left.
  - destruct (text_length s <=? n)%nat; [discriminate|].
    destruct (all_spaces _); [discriminate|]. intros [= <-]. now right.
Qed.

Lemma int4in_thrown (p : option string) (err : error) :
  on_param int4in p = Thrown err ->
  err = DbError "22P02" \/ err = DbError "22003".
Proof.
  destruct p as [s|]; simpl; [|discriminate].
  unfold int4in. destruct (NilZero.int_of_string s) as [d|].
  - destruct ((int4_min <=? Z.of_int d) && (Z.of_int d <=? int4_max));
      [discriminate|]. intros [= <-]. now right.
  - intros [= <-]. now left.
Qed.

(** What the insert raises, and the table it leaves. *)
Lemma sql_insert_thrown (p1 p2 p3 p4 : option string) (now : Z) (w : world)
  (err : error) (w' : world) :
  sql_insert p1 p2 p3 p4 now w = (Thrown err, w') ->
  students w' = students w /\
  (err = DbError "23505" ->
   exists tbl r,
     students w = Some tbl /\
     on_param (varchar 50) p3 = Returned (Some r) /\
     existsb (fun x => (s_id x =? students_id_seq w + 1)
                       || has_rollnumber r x) tbl = true).
Proof.
  destruct w as [[tbl|] q l];
    unfold sql_insert, bind, relation, lift, nextval, store, throw; simpl.
  2: { intros [= <- <-]. split; [reflexivity|discriminate]. }
  destruct (on_param (varchar 100) p1) as [n|e1] eqn:H1; simpl.
  2: { intros [= <- <-]. split; [reflexivity|].
       destruct (varchar_thrown _ _ H1) as [-> | ->]; discriminate. }
  destruct (on_param int4in p2) as [a|e2] eqn:H2; simpl.
  2: { intros [= <- <-]. split; [reflexivity|].
       destruct (int4in_thrown _ H2) as [-> | ->]; discriminate. }
  destruct (on_param (varchar 50) p3) as [r|e3] eqn:H3; simpl.
  2: { intros [= <- <-]. split; [reflexivity|].
       destruct (varchar_thrown _ _ H3) as [-> | ->]; discriminate. }
  destruct (on_param (varchar 100) p4) as [c|e4] eqn:H4; simpl.
  2: { intros [= <- <-]. split; [reflexivity|].
       destruct (varchar_thrown _ _ H4) as [-> | ->]; discriminate. }
  destruct (q <? int4_max); simpl;
    [|intros [= <- <-]; split; [reflexivity|discriminate]].
  destruct n as [n|]; simpl;
    [|intros [= <- <-]; split; [reflexivity|discriminate]].
  destruct a as [a|]; simpl;
    [|intros [= <- <-]; split; [reflexivity|discriminate]].
  destruct r as [r|]; simpl;
    [|intros [= <- <-]; split; [reflexivity|discriminate]].
  destruct c as [c|]; simpl;
    [|intros [= <- <-]; split; [reflexivity|discriminate]].
  destruct (existsb _ tbl) eqn:Hex; simpl; [|discriminate].
  intros [= <- <-]. split; [reflexivity|].
  intros _. now exists tbl, r.
Qed.

Lemma post_not_all_present_run (e : env) (b : body) (w : world) :
  all_fields_present b = false ->
  post_students e b w
  = (Returned
       (Response 400
          (Envelope false
             (Some "All fields required: name, age, rollnumber, city")
             None None)),
     w).
Proof.
  intros Hb. apply post_missing_field_run.
  unfold all_fields_present in Hb.
  destruct (truthy (b_name b)); [|now left].
  destruct (truthy (b_age b)); [|now right; left].
  destruct (truthy (b_rollnumber b)); [|now right; right; left].
  destruct (truthy (b_city b)); [discriminate|now right; right; right].
Qed.

Lemma post_400_iff_run (e : env) (b : body) (w : world) :
  exists resp w',
    post_students e b w = (Returned resp, w') /\
    (status resp = 400 <-> all_fields_present b = false).
Proof.
  destruct (all_fields_present b) eqn:Hb.
  - unfold post_students. rewrite (present_guard b Hb).
    edestruct (@handler_sends _ (fun resp => status resp <> 400) e
                 (sql_insert (prepareValue (b_name b))
                    (prepareValue (b_age b))
                    (prepareValue (b_rollnumber b))
                    (prepareValue (b_city b))))
      as (resp & w' & Hrun & Hst);
      [| |exists resp, w'; split; [exact Hrun|]].
    + sends. discriminate.
    + intros err w0.
      destruct (post_catch_cases err w0) as [[_ ->]|[_ ->]];
        eexists; (split; [reflexivity|discriminate]).
    + split; [contradiction|discriminate].
  - eexists _, _. split; [now apply post_not_all_present_run|].
    split; reflexivity.
Qed.

(** X21.  Whenever the create handler answers, its status is 400 exactly
    when one of the four fields is absent or falsy: never on a store
    failure or a duplicate, and always when a field is missing. *)
Theorem post_400_iff (e : env) (b : body) (w w' : world) (resp : response) :
  post_students e b w = (Returned resp, w') ->
  (status resp = 400 <-> all_fields_present b = false).
Proof.
  intros H.
  destruct (post_400_iff_run e b w) as (resp0 & w0 & Hrun & Hiff).
  rewrite Hrun in H. now injection H as <- <-.
Qed.

Lemma post_400_iff_witness :
  status (Response 409
            (Envelope false (Some "Roll number already exists") None None))
  = 400
  <-> all_fields_present
        (Body (JStr "Carol") (JNum 22) (JStr "R1") (JStr "Oslo")) = false.
Proof.
  apply (@post_400_iff online
           (Body (JStr "Carol") (JNum 22) (JStr "R1") (JStr "Oslo"))
           campus (World (Some [alice; bob]) 3 1)).
  reflexivity.
Defined.


(** X22.  On a table whose ids come from the sequence, the create
    handler answers 409 only for a duplicate: the server was reachable,
    the roll number of the request, as the column would hold it, is
    that of a stored row, and the table is left as it was. *)
Theorem post_409_means_duplicate (e : env) (b : body) (w w' : world)
  (resp : response) :
  exact (b_rollnumber b) = true ->
  consistent w ->
  post_students e b w = (Returned resp, w') ->
  status resp = 409 ->
  exists tbl r s,
    env_fault e = NoFault /\
    students w = Some tbl /\
    on_param (varchar 50) (prepareValue (b_rollnumber b))
    = Returned (Some r) /\
    lookup r tbl = Some s /\
    students w' = Some tbl.
Proof.
  intros Hexact Hc Hrun Hst.
  destruct (all_fields_present b) eqn:Hb.
  2: { rewrite (post_not_all_present_run e b w Hb) in Hrun.
       injection Hrun as <- <-. discriminate. }
  unfold post_students in Hrun. rewrite (present_guard b Hb) in Hrun.
  rewrite handler_run in Hrun.
  destruct (env_fault e); simpl in Hrun;
    try (injection Hrun as <- <-; discriminate).
  destruct (sql_insert _ _ _ _ _ (checked_out w)) as [[rows|err] w1]
    eqn:Hins.
  { unfold try_catch, send, ret in Hrun.
    injection Hrun as <- <-. discriminate. }
  destruct (post_catch_cases err w1) as [[Hcode Hcatch]|[Hcode Hcatch]];
    rewrite Hcatch in Hrun; injection Hrun as <- <-; [|discriminate].
  destruct err as [sqlstate| |]; try discriminate.
  injection Hcode as ->.
  destruct (sql_insert_thrown _ _ _ _ _ _ Hins) as [Htbl Hdup].
  destruct (Hdup eq_refl) as (tbl & r & Hw & Hr & Hex).
  simpl in Hw, Hex, Htbl.
  apply existsb_exists in Hex as (x & Hin & Hx).
  unfold consistent in Hc. rewrite Hw in Hc. destruct Hc as [_ Hid].
  rewrite Forall_forall in Hid. specialize (Hid x Hin).
  apply orb_true_iff in Hx as [Hx|Hx].
  { apply Z.eqb_eq in Hx. lia. }
  destruct (lookup r tbl) as [s|] eqn:Hs.
  - exists tbl, r, s. repeat split; auto. congruence.
  - exfalso. pose proof (find_none _ _ Hs x Hin) as Hno. congruence.
Qed.

Lemma post_409_means_duplicate_witness :
  exists tbl r s,
    env_fault online = NoFault /\
    students campus = Some tbl /\
    on_param (varchar 50)
      (prepareValue
         (b_rollnumber (Body (JStr "Dave") (JNum 30) (JStr "R1") (JStr "x"))))
    = Returned (Some r) /\
    lookup r tbl = Some s /\
    students (World (Some [alice; bob]) 3 1) = Some tbl.
Proof.
  apply (@post_409_means_duplicate online
           (Body (JStr "Dave") (JNum 30) (JStr "R1") (JStr "x"))
           campus (World (Some [alice; bob]) 3 1)
           (Response 409
              (Envelope false (Some "Roll number already exists")
                 None None))).
  - reflexivity.
  - split; [repeat constructor; simpl; intuition discriminate|].
    repeat constructor; simpl; lia.
  - reflexivity.
  - reflexivity.
Defined.

(** ** Start-up, on the paths that the claims leave out *)

(** X23.  The connectivity check returns [true] exactly when both
    connecting and the liveness query succeed, and then leaves the world
    as it found it.  It never touches the table.  When the query fails
    after the connection was obtained, the connection stays checked
    out. *)
Theorem connectDB_true_iff (e : env) (w : world) :
  (fst (connectDB e w) = Returned true <-> env_fault e = NoFault) /\
  (env_fault e = NoFault -> snd (connectDB e w) = w) /\
  students (snd (connectDB e w)) = students w /\
  students_id_seq (snd (connectDB e w)) = students_id_seq w /\
  (env_fault e = QueryFails ->
   leased (snd (connectDB e w)) = S (leased w)).
Proof.
  rewrite connectDB_run.
  destruct (env_fault e); simpl; repeat split;
    congruence || discriminate || auto.
Qed.

Lemma initTable_run (e : env) (w : world) :
  initTable e w
  = match env_fault e with
    | NoFault =>
        (Returned tt,
         match students w with
         | Some _ => w
         | None => World (Some []) 0 (leased w)
         end)
    | ConnectFails => (Returned tt, w)
    | QueryFails => (Returned tt, checked_out w)
    end.
Proof.
  destruct w as [[tbl|] q l].
  all: unfold initTable, try_catch, bind, pool_connect, client_query,
         client_release, sql_create_table, checked_out.
  all: destruct (env_fault e); reflexivity.
Qed.

(** X24.  Table creation never raises and never harms a table that is
    there: its rows and the sequence stay.  When there is none and the
    server is reachable, an empty table is created and the connection is
    returned; when the server is not reachable, nothing is created and
    the failure is swallowed.  Running it a second time changes nothing
    further. *)
Theorem initTable_ensures_table (e e' : env) (w : world) :
  exists w',
    initTable e w = (Returned tt, w') /\
    (forall tbl,
        students w = Some tbl ->
        students w' = Some tbl /\
        students_id_seq w' = students_id_seq w) /\
    (students w = None ->
     students w' = match env_fault e with
                   | NoFault => Some []
                   | _ => None
                   end) /\
    (env_fault e = NoFault -> leased w' = leased w) /\
    (env_fault e = NoFault -> env_fault e' = NoFault ->
     initTable e' w' = (Returned tt, w')).
Proof.
  rewrite initTable_run.
  destruct w as [[tbl|] q l], (env_fault e) eqn:He; simpl;
    (eexists; split; [reflexivity|]);
    (split; [intros tbl0 Htbl; simpl; split; congruence|]);
    (split; [intros; simpl; congruence|]);
    (split; [intros; simpl; congruence|]);
    intros H1 H2; try discriminate;
    rewrite initTable_run, H2; reflexivity.
Qed.

(** X25.  When the connectivity check passes, the process listens on
    port 9000 and does not exit, whether or not the table could be
    created.  A table that was there keeps its rows.  If there was none
    and its creation failed, the server listens without a table (and, by
    X20, answers 500 on every student route). *)
Theorem startup_listens (e1 e2 : env) (w : world) :
  env_fault e1 = NoFault ->
  exists w',
    startServer e1 e2 w = (Returned [Listen 9000], w') /\
    (forall tbl, students w = Some tbl -> students w' = Some tbl) /\
    (students w = None ->
     students w' = match env_fault e2 with
                   | NoFault => Some []
                   | _ => None
                   end).
Proof.
  intros He1. unfold startServer, try_catch, bind.
  rewrite connectDB_run, He1, initTable_run.
  destruct w as [[tbl|] q l], (env_fault e2); simpl;
    eexists; (split; [reflexivity|]); split; simpl;
    congruence || discriminate || auto.
Qed.

Lemma startup_listens_witness :
  exists w',
    startServer online dropped no_database = (Returned [Listen 9000], w') /\
    (forall tbl, students no_database = Some tbl ->
                 students w' = Some tbl) /\
    (students no_database = None ->
     students w' = match env_fault dropped with
                   | NoFault => Some []
                   | _ => None
                   end).
Proof.
  apply (@startup_listens online dropped no_database). reflexivity.
Defined.

(** ** The sequence over a run *)

Lemma sequence_grows_keeps (q0 : Z) :
  let P := fun w : world =>
             students w <> None /\ q0 <= students_id_seq w in
  (forall t q l l', P (World t q l) -> P (World t q l')) /\
  (forall p1 p2 p3 p4 now w, P w -> P (snd (sql_insert p1 p2 p3 p4 now w))) /\
  (forall p1 p2 p3 r now w, P w -> P (snd (sql_update p1 p2 p3 r now w))) /\
  (forall r now w, P w -> P (snd (sql_delete r now w))).
Proof.
  intros P. unfold P. split; [|split; [|split]].
  - intros t q l l' H. exact H.
  - intros p1 p2 p3 p4 now [[tbl|] q l] [Ht Hq]; [|contradiction].
    simpl in Hq.
    unfold sql_insert, bind, relation, lift, nextval, store, throw; simpl.
    repeat match goal with
           | |- context [?a <? ?b] => destruct (a <? b); simpl
           | |- context [match ?x with _ => _ end] => destruct x; simpl
           end;
      (split; [discriminate|lia]).
  - intros p1 p2 p3 r now [[tbl|] q l] [Ht Hq]; [|contradiction].
    simpl in Hq.
    unfold sql_update, bind, relation, lift, store; simpl.
    repeat match goal with
           | |- context [match ?x with _ => _ end] => destruct x; simpl
           end;
      (split; [discriminate|lia]).
  - intros r now [[tbl|] q l] [Ht Hq]; [|contradiction].
    simpl in Hq.
    unfold sql_delete, bind, relation, store; simpl.
    split; [discriminate|lia].
Qed.

(** X26.  Once the table exists, no sequence of requests removes it,
    and the sequence that numbers the students never goes back, whatever
    is created, deleted or fails on the way. *)
Theorem serve_sequence_grows (reqs : list (env * request)) (w : world) :
  students w <> None ->
  students (snd (serve reqs w)) <> None /\
  students_id_seq w <= students_id_seq (snd (serve reqs w)).
Proof.
  intros Hw.
  destruct (sequence_grows_keeps (students_id_seq w))
    as (H1 & H2 & H3 & H4).
  apply (@serve_keeps
           (fun w' => students w' <> None /\
                      students_id_seq w <= students_id_seq w'));
    auto.
  split; [exact Hw|lia].
Qed.

Lemma serve_sequence_grows_witness :
  students
    (snd (serve [(online, PostStudents carol); (online, DeleteStudent "R3")]
            campus)) <> None /\
  students_id_seq campus
  <= students_id_seq
       (snd (serve [(online, PostStudents carol);
                    (online, DeleteStudent "R3")] campus)).
Proof.
  apply (@serve_sequence_grows
           [(online, PostStudents carol); (online, DeleteStudent "R3")]
           campus).
  discriminate.
Defined.

(** * The duplicate-key rule of create *)





(** * The merge of update *)


